(** * CreaDIG photo-evaluation gateway: [backend/server.js]

    A shallow embedding of the single request handler of the backend,
    [app.post("/analyze", async (req, res) => ...)], together with the
    JavaScript values it inspects and builds, and the properties of the
    handler that the specification of the gateway states.

    - JavaScript strings are sequences of UTF-16 code units, so that
      [imageBase64.length] is the length of the sequence.
    - JavaScript values are the JSON-shaped values the handler meets:
      [undefined], [null], booleans, numbers, strings, arrays and plain
      objects (ordered property lists).  Numbers are kept abstract: the
      handler only ever asks whether one is truthy.
    - The handler is a computation over three effects: the awaited call
      [client.responses.create], [console.error], and the reply sent on
      [res].  Running it against an upstream stub yields the trace of
      effects and the way the [async] function completed.
    - [JSON.parse] and the upstream provider are not code of the
      repository; they are parameters of the development. *)

From Stdlib Require Import List String Ascii NArith ZArith Bool Lia.
Import ListNotations.

Set Implicit Arguments.
Set Warnings "-register-all".

(* ================================================================== *)
(** ** Strings *)

(** A UTF-16 code unit, and a JavaScript string. *)
Definition code_unit : Type := N.
Definition jsstring : Type := list code_unit.

Local Open Scope N_scope.

(** How a string literal of the (UTF-8 encoded) source file is read as a
    JavaScript string: one to three bytes give one code unit, four bytes
    give a surrogate pair.  The replacement character stands for a
    truncated sequence. *)
Fixpoint utf16 (s : string) : jsstring :=
  match s with
  | EmptyString => []
  | String a rest =>
      let b0 := N_of_ascii a in
      if b0 <? 128 then b0 :: utf16 rest
      else if b0 <? 224 then
        match rest with
        | String a1 rest1 =>
            ((b0 - 192) * 64 + (N_of_ascii a1 - 128)) :: utf16 rest1
        | EmptyString => [65533]
        end
      else if b0 <? 240 then
        match rest with
        | String a1 (String a2 rest2) =>
            ((b0 - 224) * 4096 + (N_of_ascii a1 - 128) * 64
             + (N_of_ascii a2 - 128)) :: utf16 rest2
        | _ => [65533]
        end
      else
        match rest with
        | String a1 (String a2 (String a3 rest3)) =>
            let cp := (b0 - 240) * 262144 + (N_of_ascii a1 - 128) * 4096
                      + (N_of_ascii a2 - 128) * 64 + (N_of_ascii a3 - 128) in
            let v := cp - 65536 in
            (55296 + v / 1024) :: (56320 + v mod 1024) :: utf16 rest3
        | _ => [65533]
        end
  end.

Coercion utf16 : string >-> jsstring.

Fixpoint jsstring_eqb (s t : jsstring) : bool :=
  match s, t with
  | [], [] => true
  | c :: s', d :: t' => (c =? d) && jsstring_eqb s' t'
  | _, _ => false
  end.

(** [s.length] *)
Definition str_length (s : jsstring) : N := N.of_nat (List.length s).

(** White space in the sense of [String.prototype.trim]. *)
Definition is_white_space (c : code_unit) : bool :=
  ((9 <=? c) && (c <=? 13)) || (c =? 32) || (c =? 160) || (c =? 5760)
  || ((8192 <=? c) && (c <=? 8202)) || (c =? 8232) || (c =? 8233)
  || (c =? 8239) || (c =? 8287) || (c =? 12288) || (c =? 65279).

Fixpoint trimStart (s : jsstring) : jsstring :=
  match s with
  | c :: s' => if is_white_space c then trimStart s' else s
  | [] => []
  end.

Definition trimEnd (s : jsstring) : jsstring := rev (trimStart (rev s)).

Definition trim (s : jsstring) : jsstring := trimEnd (trimStart s).

(** The decimal digits of a canonical array index ([0], [1], ..., no
    leading zero), as property keys spell them. *)
Fixpoint digits_value (acc : N) (s : jsstring) : option N :=
  match s with
  | [] => Some acc
  | c :: s' =>
      if (48 <=? c) && (c <=? 57) then digits_value (acc * 10 + (c - 48)) s'
      else None
  end.

Definition array_index (k : jsstring) : option nat :=
  match k with
  | [] => None
  | [48] => Some O
  | 48 :: _ => None
  | _ => option_map N.to_nat (digits_value 0 k)
  end.

(* ================================================================== *)
(** ** Values *)

Section Values.

Variable number : Type.

Inductive JSValue : Type :=
| JUndefined
| JNull
| JBool (b : bool)
| JNum (n : number)
| JStr (s : jsstring)
| JArr (items : list JSValue)
| JObj (props : list (jsstring * JSValue)).

(** One property of an object literal, [name: v]. *)
Definition field (name : string) (v : JSValue) : jsstring * JSValue :=
  (utf16 name, v).

(** Own property of a plain object: the first binding of the key. *)
Fixpoint own_property (k : jsstring) (props : list (jsstring * JSValue))
  : option JSValue :=
  match props with
  | [] => None
  | (k', v) :: rest => if jsstring_eqb k k' then Some v else own_property k rest
  end.

(** [v[k]] for a value [v] that is neither [undefined] nor [null]: an own
    property of an object, an element of an array, a character of a
    string; [undefined] when there is none.  The keys the handler reads
    ([imageBase64], [output], [content], [type], [text] and the index
    [0]) name nothing inherited from a prototype, and [length] is read
    through [js_length] below. *)
Definition get_prop (v : JSValue) (k : jsstring) : JSValue :=
  match v with
  | JObj props =>
      match own_property k props with Some x => x | None => JUndefined end
  | JArr items =>
      match array_index k with
      | Some i => nth i items JUndefined
      | None => JUndefined
      end
  | JStr s =>
      match array_index k with
      | Some i =>
          match nth_error s i with Some c => JStr [c] | None => JUndefined end
      | None => JUndefined
      end
  | _ => JUndefined
  end.

(** [v.length] of a string or an array. *)
Definition js_length (v : JSValue) : N :=
  match v with
  | JStr s => str_length s
  | JArr items => N.of_nat (List.length items)
  | _ => 0
  end.

(** [typeof v] *)
Definition typeof (v : JSValue) : jsstring :=
  match v with
  | JUndefined => "undefined"
  | JNull => "object"
  | JBool _ => "boolean"
  | JNum _ => "number"
  | JStr _ => "string"
  | JArr _ => "object"
  | JObj _ => "object"
  end%string.

(** [v === s] and [v !== s] for a string [s]: no conversion takes place. *)
Definition strict_equals_string (v : JSValue) (s : jsstring) : bool :=
  match v with
  | JStr t => jsstring_eqb t s
  | _ => false
  end.

Definition strict_differs_string (v : JSValue) (s : jsstring) : bool :=
  negb (strict_equals_string v s).

(** What a [throw] carries: the engine's [TypeError] and [SyntaxError],
    or the reason of a rejected promise. *)
Inductive Exn : Type :=
| TypeError
| SyntaxError
| Reason (v : JSValue).

(** How an evaluation completes. *)
Inductive completion (A : Type) : Type :=
| Normal (a : A)
| Abrupt (e : Exn).

(** [v.k]: throws on [undefined] and [null]. *)
Definition member (v : JSValue) (k : jsstring) : completion JSValue :=
  match v with
  | JUndefined | JNull => Abrupt _ TypeError
  | _ => Normal (get_prop v k)
  end.

(** [v?.k] and [v?.[i]] *)
Definition optional_member (v : JSValue) (k : jsstring) : JSValue :=
  match v with
  | JUndefined | JNull => JUndefined
  | _ => get_prop v k
  end.

End Values.

Arguments JUndefined {number}.
Arguments JNull {number}.
Arguments JBool {number} b.
Arguments JStr {number} s.
Arguments JArr {number} items.
Arguments JObj {number} props.
Arguments TypeError {number}.
Arguments SyntaxError {number}.
Arguments Abrupt {number A} e.
Arguments Normal {number A} a.

(* ================================================================== *)
(** ** The rubric: [buildPhotoPrompt] *)

Local Open Scope string_scope.

Definition dq : string := String "034"%char EmptyString.
Definition nl : string := String "010"%char EmptyString.

(** The lines of the template literal of [buildPhotoPrompt], between the
    line break that follows the opening backquote and the one that
    precedes the closing backquote.  The literal has no substitution. *)
Definition template_lines : list string :=
  [ "Eres un jurado experto en fotografía digital y creatividad visual.";
    EmptyString;
    "ANÁLISIS:";
    "1) COMPOSICIÓN ESPACIAL:";
    "   - Regla de los tercios (distribución de masas, sujeto en puntos fuertes, equilibrio visual).";
    "   - Posible uso de proporción áurea / espiral áurea (aunque sea aproximada).";
    "   - Horizontes: si aparecen, si están alineados, en tercio superior/inferior, etc.";
    "   - Líneas de fuga y direccionales (leading lines), regla de la mirada.";
    "   - Equilibrio entre primer plano, fondo, simplicidad vs. saturación.";
    EmptyString;
    "2) CREATIVIDAD DIGITAL:";
    "   - Novedad del punto de vista, encuadre, iluminación, color.";
    "   - Capacidad de la imagen para sugerir una historia, una emoción o un simbolismo.";
    "   - Uso original de las tecnologías digitales (edición sutil o evidente, filtros, efectos, collage, etc.).";
    EmptyString;
    "3) CALIDAD TÉCNICA BÁSICA (percepción subjetiva):";
    "   - Enfoque/aparente nitidez del motivo principal.";
    "   - Gestión de la luz (altos contrastes, contraluces, zonas quemadas u oscuras).";
    "   - Color (armonía cromática, uso intencional del color, dominante cromática).";
    EmptyString;
    "4) AJUSTE A LA SIGUIENTE DEFINICIÓN DE CREATIVIDAD DIGITAL:";
    "   " ++ dq ++ "Digital creativity is a multifaceted process in which new and valuable ideas, products, or solutions are generated through the use of digital technologies. This process involves the interaction between cognitive and socio-emotional skills, technological tools, and a collaborative environment, facilitating both self-expression and creative problem solving in various contexts (educational, professional, cultural, and social)." ++ dq;
    EmptyString;
    "ESCALA:";
    "- Usa escala 0–10.";
    "- 5 = fotografía correcta pero convencional.";
    "- 8–10 = fotografía claramente creativa y muy bien compuesta para contexto educativo.";
    "- <4 = fotografía pobre en creatividad visual o claramente descuidada en composición.";
    EmptyString;
    "SALIDA:";
    "Devuelve EXCLUSIVAMENTE un JSON VÁLIDO que siga EXACTAMENTE este esquema:";
    EmptyString;
    "{";
    "  " ++ dq ++ "overall_score" ++ dq ++ ": number,           // 0–10, síntesis global";
    "  " ++ dq ++ "creativity_score" ++ dq ++ ": number,        // 0–10, creatividad/expresión";
    "  " ++ dq ++ "composition_score" ++ dq ++ ": number,       // 0–10, composición y encuadre";
    "  " ++ dq ++ "technical_score" ++ dq ++ ": number,         // 0–10, calidad técnica básica";
    "  " ++ dq ++ "rules" ++ dq ++ ": {";
    "    " ++ dq ++ "rule_of_thirds" ++ dq ++ ": {";
    "      " ++ dq ++ "applied" ++ dq ++ ": boolean,";
    "      " ++ dq ++ "score" ++ dq ++ ": number,               // 0–10, uso de tercios";
    "      " ++ dq ++ "comment" ++ dq ++ ": string";
    "    },";
    "    " ++ dq ++ "golden_ratio" ++ dq ++ ": {";
    "      " ++ dq ++ "applied" ++ dq ++ ": boolean,";
    "      " ++ dq ++ "score" ++ dq ++ ": number,";
    "      " ++ dq ++ "comment" ++ dq ++ ": string";
    "    },";
    "    " ++ dq ++ "leading_lines" ++ dq ++ ": {";
    "      " ++ dq ++ "applied" ++ dq ++ ": boolean,";
    "      " ++ dq ++ "score" ++ dq ++ ": number,";
    "      " ++ dq ++ "comment" ++ dq ++ ": string";
    "    },";
    "    " ++ dq ++ "light_and_shadow" ++ dq ++ ": {";
    "      " ++ dq ++ "score" ++ dq ++ ": number,               // 0–10, calidad expresiva de luces y sombras";
    "      " ++ dq ++ "comment" ++ dq ++ ": string";
    "    }";
    "  },";
    "  " ++ dq ++ "text_explanation" ++ dq ++ ": string         // explicación breve (5–8 líneas) de la valoración global";
    "}";
    EmptyString;
    "NO añadas ningún texto fuera del JSON. NO expliques la escala fuera del JSON. SOLO el JSON." ].

Definition photo_prompt_template : string :=
  nl ++ String.concat nl template_lines ++ nl.

(** [function buildPhotoPrompt() { return `...`.trim(); }] *)
Definition buildPhotoPrompt (_ : unit) : jsstring :=
  trim (utf16 photo_prompt_template).

(* ================================================================== *)
(** ** Effects of the handler *)

Section Effects.

Variable number : Type.

Local Abbreviation value := (JSValue number).

(** How the promise of [client.responses.create] settles. *)
Inductive Settled : Type :=
| Fulfilled (response : value)
| Rejected (reason : value).

(** The second argument of a [console.error] call. *)
Inductive Logged : Type :=
| LogValue (v : value)
| LogExn (e : Exn number).

(** What a run of the handler does to the outside, in order. *)
Inductive Event : Type :=
| EvCreate (args : value)
| EvConsoleError (label : jsstring) (arg : Logged)
| EvSend (status : Z) (body : value).

(** Computations of the handler: they return, throw, await the model
    call, log, or send the reply. *)
Inductive Async (A : Type) : Type :=
| Return (a : A)
| Throw (e : Exn number)
| AwaitCreate (args : value) (k : Settled -> Async A)
| ConsoleError (label : jsstring) (arg : Logged) (k : Async A)
| ResSend (status : Z) (body : value) (k : Async A).

Arguments Throw {A} e.

Fixpoint bind {A B : Type} (m : Async A) (f : A -> Async B) : Async B :=
  match m with
  | Return a => f a
  | Throw e => Throw e
  | AwaitCreate args k => AwaitCreate args (fun o => bind (k o) f)
  | ConsoleError label arg k => ConsoleError label arg (bind k f)
  | ResSend status body k => ResSend status body (bind k f)
  end.

(** [try { m } catch (err) { h err }] *)
Fixpoint try_catch {A : Type} (m : Async A) (h : Exn number -> Async A)
  : Async A :=
  match m with
  | Return a => Return a
  | Throw e => h e
  | AwaitCreate args k => AwaitCreate args (fun o => try_catch (k o) h)
  | ConsoleError label arg k => ConsoleError label arg (try_catch k h)
  | ResSend status body k => ResSend status body (try_catch k h)
  end.

(** An expression that completes at once, as a computation. *)
Definition eval {A : Type} (c : completion number A) : Async A :=
  match c with
  | Normal a => Return a
  | Abrupt e => Throw e
  end.

(** [await client.responses.create(args)]: a rejection is thrown at the
    [await]. *)
Definition await_responses_create (args : value) : Async value :=
  AwaitCreate args
    (fun o => match o with
              | Fulfilled response => Return response
              | Rejected reason => Throw (Reason reason)
              end).

(** [console.error(label, arg)] *)
Definition console_error (label : jsstring) (arg : Logged) : Async unit :=
  ConsoleError label arg (Return tt).

(** [res.status(code).json(body)], and [res.json(body)] with the status
    [res] starts with. *)
Definition res_status_json (code : Z) (body : value) : Async unit :=
  ResSend code body (Return tt).

Definition res_json (body : value) : Async unit :=
  res_status_json 200 body.

(** Running a computation against the upstream provider. *)
Fixpoint run {A : Type} (upstream : value -> Settled) (m : Async A)
  : list Event * completion number A :=
  match m with
  | Return a => ([], Normal a)
  | Throw e => ([], Abrupt e)
  | AwaitCreate args k =>
      let r := run upstream (k (upstream args)) in
      (EvCreate args :: fst r, snd r)
  | ConsoleError label arg k =>
      let r := run upstream k in
      (EvConsoleError label arg :: fst r, snd r)
  | ResSend status body k =>
      let r := run upstream k in
      (EvSend status body :: fst r, snd r)
  end.

(** The projections of a trace. *)
Definition model_calls (tr : list Event) : list value :=
  flat_map (fun e => match e with EvCreate args => [args] | _ => [] end) tr.

Definition responses (tr : list Event) : list (Z * value) :=
  flat_map (fun e => match e with EvSend st b => [(st, b)] | _ => [] end) tr.

Definition logs (tr : list Event) : list (jsstring * Logged) :=
  flat_map (fun e => match e with EvConsoleError l a => [(l, a)] | _ => [] end)
           tr.

End Effects.

Arguments Return {number A} a.
Arguments Throw {number A} e.
Arguments AwaitCreate {number A} args k.
Arguments ConsoleError {number A} label arg k.
Arguments ResSend {number A} status body k.

Declare Scope async_scope.
Delimit Scope async_scope with async.
Notation "x <- m ;; k" := (bind m (fun x => k))
  (at level 61, m at next level, right associativity) : async_scope.
Notation "m ;; k" := (bind m (fun _ => k))
  (at level 61, right associativity) : async_scope.

(* ================================================================== *)
(** ** The handler of [POST /analyze] *)

Section Gateway.

Variable number : Type.

(** [ToBoolean] on numbers: false on zeros and [NaN]. *)
Variable number_truthy : number -> bool.

Local Abbreviation value := (JSValue number).

(** [JSON.parse], applied to whatever it is handed (its argument is first
    converted to a string); [None] when it throws [SyntaxError]. *)
Variable JSON_parse : value -> option value.

(** The upstream provider, as the handler sees it: how the promise of
    [client.responses.create(args)] settles. *)
Variable upstream : value -> Settled number.

(** [ToBoolean] *)
Definition truthy (v : value) : bool :=
  match v with
  | JUndefined | JNull => false
  | JBool b => b
  | JNum n => number_truthy n
  | JStr [] => false
  | JStr (_ :: _) => true
  | JArr _ | JObj _ => true
  end.

Definition JSON_parse_completion (text : value) : completion number value :=
  match JSON_parse text with
  | Some parsed => Normal parsed
  | None => Abrupt SyntaxError
  end.

(** [{ error: message }] *)
Definition error_body (message : string) : value :=
  JObj [field "error" (JStr message)].

(** The [schema] of the [json_schema] response format. *)
Definition typed (t : string) : value := JObj [field "type" (JStr t)].

Definition required (names : list string) : value :=
  JArr (map (fun name => JStr (utf16 name)) names).

Definition rule_schema_applied : value :=
  JObj [ field "type" (JStr "object");
         field "properties"
           (JObj [ field "applied" (typed "boolean");
                   field "score" (typed "number");
                   field "comment" (typed "string") ]);
         field "required" (required ["applied"; "score"; "comment"]) ].

Definition photo_evaluation_schema : value :=
  JObj [ field "type" (JStr "object");
         field "properties"
           (JObj [ field "overall_score" (typed "number");
                   field "creativity_score" (typed "number");
                   field "composition_score" (typed "number");
                   field "technical_score" (typed "number");
                   field "rules"
                     (JObj [ field "type" (JStr "object");
                             field "properties"
                               (JObj [ field "rule_of_thirds" rule_schema_applied;
                                       field "golden_ratio" rule_schema_applied;
                                       field "leading_lines" rule_schema_applied;
                                       field "light_and_shadow"
                                         (JObj [ field "type" (JStr "object");
                                                 field "properties"
                                                   (JObj [ field "score" (typed "number");
                                                           field "comment" (typed "string") ]);
                                                 field "required"
                                                   (required ["score"; "comment"]) ]) ]);
                             field "required"
                               (required [ "rule_of_thirds"; "golden_ratio";
                                           "leading_lines"; "light_and_shadow" ]) ]);
                   field "text_explanation" (typed "string") ]);
         field "required"
           (required [ "overall_score"; "creativity_score"; "composition_score";
                       "technical_score"; "rules"; "text_explanation" ]) ].

Definition response_format : value :=
  JObj [ field "type" (JStr "json_schema");
         field "json_schema"
           (JObj [ field "name" (JStr "PhotoEvaluation");
                   field "schema" photo_evaluation_schema;
                   field "strict" (JBool true) ]) ].

(** The argument of [client.responses.create]. *)
Definition create_args (prompt : jsstring) (imageBase64 : value) : value :=
  JObj [ field "model" (JStr "gpt-4.1-mini");
         field "input"
           (JArr [ JObj [ field "role" (JStr "user");
                          field "content"
                            (JArr [ JObj [ field "type" (JStr "input_text");
                                           field "text" (JStr prompt) ];
                                    JObj [ field "type" (JStr "input_image");
                                           field "image_url" imageBase64 ] ]) ] ]);
         field "response_format" response_format ].

(** [response.output?.[0]?.content?.[0]] *)
Definition first_content (response : value) : completion number value :=
  match member response "output" with
  | Normal output =>
      Normal (optional_member
                (optional_member (optional_member output "0") "content") "0")
  | Abrupt e => Abrupt e
  end.

Local Open Scope async_scope.

(** The body of the outer [try]. *)
Definition analyze_try (req_body : value) : Async number unit :=
  imageBase64 <- eval (member req_body "imageBase64") ;;
  if negb (truthy imageBase64)
     || negb (jsstring_eqb (typeof imageBase64) "string")
  then
    res_status_json 400
      (error_body "Falta imageBase64 (dataURL base64 de la imagen).")
  else if (4000000 <? js_length imageBase64)%N
  then res_status_json 400 (error_body "La imagen es demasiado grande.")
  else
    let prompt := buildPhotoPrompt tt in
    response <- await_responses_create (create_args prompt imageBase64) ;;
    content <- eval (first_content response) ;;
    if negb (truthy content)
       || strict_differs_string (get_prop content "type") "output_text"
    then
      console_error "Formato inesperado de respuesta:" (LogValue response) ;;
      res_status_json 500
        (error_body "Formato inesperado de respuesta del modelo.")
    else
      let jsonText := get_prop content "text" in
      match JSON_parse_completion jsonText with
      | Abrupt parseErr =>
          console_error "Error parseando JSON devuelto por el modelo:"
                        (LogExn parseErr) ;;
          res_status_json 500
            (error_body "No se ha podido interpretar la respuesta de la IA.")
      | Normal parsed => res_json parsed
      end.

(** The handler: [try { ... } catch (err) { ... }]. *)
Definition analyze_handler (req_body : value) : Async number unit :=
  try_catch (analyze_try req_body)
    (fun err =>
       console_error "Error en /analyze:" (LogExn err) ;;
       res_status_json 500 (error_body "Error interno analizando la imagen.")).

(* ------------------------------------------------------------------ *)
(** *** Runs of the handler and what they show *)

(** The run of the handler on a request body ([req.body]). *)
Definition exec (req_body : value)
  : list (Event number) * completion number unit :=
  run upstream (analyze_handler req_body).

(** The guard of the first check,
    [!imageBase64 || typeof imageBase64 !== "string"]. *)
Definition rejects_image (imageBase64 : value) : bool :=
  negb (truthy imageBase64)
  || negb (jsstring_eqb (typeof imageBase64) "string").

(** The guard of the format check,
    [!content || content.type !== "output_text"]. *)
Definition rejects_content (content : value) : bool :=
  negb (truthy content)
  || strict_differs_string (get_prop content "type") "output_text".

(** The text the handler goes on to parse, when the format check lets
    the response through: [content.text]. *)
Definition extracted_text (response : value) : option value :=
  match first_content response with
  | Normal content =>
      if rejects_content content then None
      else Some (get_prop content "text")
  | Abrupt _ => None
  end.

(** The request sent upstream for an image. *)
Definition outbound (imageBase64 : value) : value :=
  create_args (buildPhotoPrompt tt) imageBase64.

(** The handler once more, from the [await] on: [rest_of_try] is what
    the [try] block does with the settled promise, and [on_error] is the
    [catch] clause.  The lemma [exec_accepted] ties them to
    [analyze_handler]. *)
Definition on_error (err : Exn number) : Async number unit :=
  bind (console_error "Error en /analyze:" (LogExn err))
       (fun _ => res_status_json 500
                   (error_body "Error interno analizando la imagen.")).

Definition rest_of_try (settled : Settled number) : Async number unit :=
  bind (match settled with
        | Fulfilled response => Return response
        | Rejected reason => Throw (Reason reason)
        end)
       (fun response =>
          bind (eval (first_content response))
               (fun content =>
                  if rejects_content content
                  then
                    bind (console_error "Formato inesperado de respuesta:"
                                        (LogValue response))
                         (fun _ =>
                            res_status_json 500
                              (error_body
                                 "Formato inesperado de respuesta del modelo."))
                  else
                    match JSON_parse_completion (get_prop content "text") with
                    | Abrupt parseErr =>
                        bind (console_error
                                "Error parseando JSON devuelto por el modelo:"
                                (LogExn parseErr))
                             (fun _ =>
                                res_status_json 500
                                  (error_body
                                     "No se ha podido interpretar la respuesta de la IA."))
                    | Normal parsed => res_json parsed
                    end)).

(** A request body that passes both checks: [imageBase64] is a string,
    not empty, of at most 4,000,000 code units. *)
Definition accepted (req_body : value) (s : jsstring) : Prop :=
  member req_body "imageBase64" = Normal (JStr s)
  /\ s <> [] /\ (str_length s <= 4000000)%N.

(** A well-formed request in the words of the specification's round-trip
    property: [imageBase64] is present, is a string, and has at most
    4,000,000 code units. *)
Definition well_formed_request (req_body : value) : Prop :=
  exists s, get_prop req_body "imageBase64" = JStr s
            /\ (str_length s <= 4000000)%N.

(** The five replies of the handler on failure, status and body. *)
Definition reply_missing : Z * value :=
  (400%Z, error_body "Falta imageBase64 (dataURL base64 de la imagen).").
Definition reply_too_large : Z * value :=
  (400%Z, error_body "La imagen es demasiado grande.").
Definition reply_format : Z * value :=
  (500%Z, error_body "Formato inesperado de respuesta del modelo.").
Definition reply_parse : Z * value :=
  (500%Z, error_body "No se ha podido interpretar la respuesta de la IA.").
Definition reply_internal : Z * value :=
  (500%Z, error_body "Error interno analizando la imagen.").

Definition error_replies : list (Z * value) :=
  [reply_missing; reply_too_large; reply_format; reply_parse; reply_internal].

Definition send (reply : Z * value) : Event number :=
  EvSend (fst reply) (snd reply).

(** The three diagnostics of the handler. *)
Definition log_format (response : value) : Event number :=
  EvConsoleError "Formato inesperado de respuesta:" (LogValue response).
Definition log_parse (e : Exn number) : Event number :=
  EvConsoleError "Error parseando JSON devuelto por el modelo:" (LogExn e).
Definition log_internal (e : Exn number) : Event number :=
  EvConsoleError "Error en /analyze:" (LogExn e).

Definition log_labels : list jsstring :=
  [ utf16 "Formato inesperado de respuesta:";
    utf16 "Error parseando JSON devuelto por el modelo:";
    utf16 "Error en /analyze:" ].

(** A reply body with an [error] property holding a string. *)
Definition has_error_field (body : value) : bool :=
  match body with
  | JObj _ => match get_prop body "error" with JStr _ => true | _ => false end
  | _ => false
  end.

(** The paths through the handler, each with the trace it leaves. *)
Inductive handler_run (req_body : value)
  : list (Event number) * completion number unit -> Prop :=
| run_body_throws (e : Exn number) :
    member req_body "imageBase64" = Abrupt e ->
    handler_run req_body ([log_internal e; send reply_internal], Normal tt)
| run_image_rejected (imageBase64 : value) :
    member req_body "imageBase64" = Normal imageBase64 ->
    rejects_image imageBase64 = true ->
    handler_run req_body ([send reply_missing], Normal tt)
| run_too_large (s : jsstring) :
    member req_body "imageBase64" = Normal (JStr s) ->
    (4000000 < str_length s)%N ->
    handler_run req_body ([send reply_too_large], Normal tt)
| run_upstream_rejected (s : jsstring) (reason : value) :
    accepted req_body s ->
    upstream (outbound (JStr s)) = Rejected reason ->
    handler_run req_body
      ([EvCreate (outbound (JStr s)); log_internal (Reason reason);
        send reply_internal], Normal tt)
| run_envelope_throws (s : jsstring) (response : value) (e : Exn number) :
    accepted req_body s ->
    upstream (outbound (JStr s)) = Fulfilled response ->
    first_content response = Abrupt e ->
    handler_run req_body
      ([EvCreate (outbound (JStr s)); log_internal e; send reply_internal],
       Normal tt)
| run_format_error (s : jsstring) (response content : value) :
    accepted req_body s ->
    upstream (outbound (JStr s)) = Fulfilled response ->
    first_content response = Normal content ->
    rejects_content content = true ->
    handler_run req_body
      ([EvCreate (outbound (JStr s)); log_format response; send reply_format],
       Normal tt)
| run_parse_error (s : jsstring) (response text : value) :
    accepted req_body s ->
    upstream (outbound (JStr s)) = Fulfilled response ->
    extracted_text response = Some text ->
    JSON_parse text = None ->
    handler_run req_body
      ([EvCreate (outbound (JStr s)); log_parse SyntaxError; send reply_parse],
       Normal tt)
| run_success (s : jsstring) (response text parsed : value) :
    accepted req_body s ->
    upstream (outbound (JStr s)) = Fulfilled response ->
    extracted_text response = Some text ->
    JSON_parse text = Some parsed ->
    handler_run req_body
      ([EvCreate (outbound (JStr s)); EvSend 200 parsed], Normal tt).

(* ------------------------------------------------------------------ *)
(** *** Reading an upstream response and an outbound request *)

(** The values held by the indexable properties of a value. *)
Definition elements (v : value) : list value :=
  match v with
  | JArr items => items
  | JObj props => map snd props
  | JStr s => map (fun c => JStr [c]) s
  | _ => []
  end.

(** A content item of type [output_text]. *)
Definition is_text_block (item : value) : bool :=
  strict_equals_string (get_prop item "type") "output_text".

(** Every text block of a response envelope: the [output_text] items of
    the [content] of the items of [output]. *)
Definition text_blocks (response : value) : list value :=
  flat_map (fun item => filter is_text_block (elements (get_prop item "content")))
           (elements (get_prop response "output")).

(** A content part of type [input_image]. *)
Definition is_image_part (part : value) : bool :=
  strict_equals_string (get_prop part "type") "input_image".

(** The parts of a message other than its images. *)
Definition non_image_parts (message : value) : list value :=
  filter (fun part => negb (is_image_part part))
         (elements (get_prop message "content")).

(** The non-image portion of an outbound request: the parts of its
    messages that are not images. *)
Definition non_image_portion (args : value) : list value :=
  flat_map non_image_parts (elements (get_prop args "input")).

(** An object with one property replaced. *)
Fixpoint update_property (k : jsstring) (f : value -> value)
         (props : list (jsstring * value)) : list (jsstring * value) :=
  match props with
  | [] => []
  | (k', v) :: rest =>
      if jsstring_eqb k k' then (k', f v) :: rest
      else (k', v) :: update_property k f rest
  end.

Definition update (k : jsstring) (f : value -> value) (v : value) : value :=
  match v with
  | JObj props => JObj (update_property k f props)
  | _ => v
  end.

(** An outbound request with the image parts of its messages taken
    out: the model, the roles, the text parts and the response format
    stay. *)
Definition without_images (args : value) : value :=
  update "input"
    (fun input =>
       JArr (map (update "content"
                    (fun content =>
                       JArr (filter (fun part => negb (is_image_part part))
                                    (elements content))))
                 (elements input)))
    args.

End Gateway.

Arguments error_body number message : clear implicits.
Arguments reply_missing number : clear implicits.
Arguments reply_too_large number : clear implicits.
Arguments reply_format number : clear implicits.
Arguments reply_parse number : clear implicits.
Arguments reply_internal number : clear implicits.
Arguments error_replies number : clear implicits.
Arguments response_format number : clear implicits.
Arguments photo_evaluation_schema number : clear implicits.

(* ================================================================== *)
(** ** The shape the schema declares *)

(** Shapes of results: what a JSON schema made of [type], [properties]
    and [required] can declare. *)
Inductive Shape : Type :=
| SNumber
| SBoolean
| SString
| SObject (fields : list (jsstring * Shape)).

Definition named (name : string) (shape : Shape) : jsstring * Shape :=
  (utf16 name, shape).

(** EvaluationResult as the specification describes it: four numeric
    scores, the mapping [rules] with its four named judgments, and the
    explanation. *)
Definition EvaluationResult : Shape :=
  SObject
    [ named "overall_score" SNumber;
      named "creativity_score" SNumber;
      named "composition_score" SNumber;
      named "technical_score" SNumber;
      named "rules"
        (SObject
           [ named "rule_of_thirds"
               (SObject [ named "applied" SBoolean; named "score" SNumber;
                          named "comment" SString ]);
             named "golden_ratio"
               (SObject [ named "applied" SBoolean; named "score" SNumber;
                          named "comment" SString ]);
             named "leading_lines"
               (SObject [ named "applied" SBoolean; named "score" SNumber;
                          named "comment" SString ]);
             named "light_and_shadow"
               (SObject [ named "score" SNumber; named "comment" SString ]) ]);
      named "text_explanation" SString ].

Section Schemas.

Variable number : Type.

Local Abbreviation value := (JSValue number).

Fixpoint traverse {A : Type} (f : value -> option A)
         (props : list (jsstring * value)) : option (list (jsstring * A)) :=
  match props with
  | [] => Some []
  | (k, v) :: rest =>
      match f v, traverse f rest with
      | Some a, Some others => Some ((k, a) :: others)
      | _, _ => None
      end
  end.

(** The shape a schema declares, read off its [type] and [properties];
    [depth] bounds the nesting that is followed. *)
Fixpoint declared_shape (depth : nat) (schema : value) : option Shape :=
  match depth with
  | O => None
  | S depth' =>
      match get_prop schema "type" with
      | JStr t =>
          if jsstring_eqb t "number" then Some SNumber
          else if jsstring_eqb t "boolean" then Some SBoolean
          else if jsstring_eqb t "string" then Some SString
          else if jsstring_eqb t "object" then
            match get_prop schema "properties" with
            | JObj props =>
                option_map SObject (traverse (declared_shape depth') props)
            | _ => None
            end
          else None
      | _ => None
      end
  end.

(** [name] is one of the strings of the array [required]. *)
Definition lists_name (required : value) (name : jsstring) : bool :=
  existsb (fun r => strict_equals_string r name) (elements required).

(** Every property an object schema declares is listed in its
    [required], at every level down to [depth]. *)
Fixpoint all_required (depth : nat) (schema : value) : bool :=
  match depth with
  | O => false
  | S depth' =>
      match get_prop schema "properties" with
      | JObj props =>
          forallb (fun p => lists_name (get_prop schema "required") (fst p)
                            && all_required depth' (snd p))
                  props
      | _ => true
      end
  end.

(** No object schema carries the keyword [k], at any level down to
    [depth]. *)
Fixpoint lacks_keyword (k : jsstring) (depth : nat) (schema : value) : bool :=
  match depth with
  | O => false
  | S depth' =>
      match schema with
      | JObj props =>
          match own_property k props with
          | Some _ => false
          | None =>
              match get_prop schema "properties" with
              | JObj fields =>
                  forallb (fun p => lacks_keyword k depth' (snd p)) fields
              | _ => true
              end
          end
      | _ => true
      end
  end.

End Schemas.

(* ================================================================== *)
(** ** Stand-ins for the examples *)

(** Integers stand for numbers; zero is the falsy one. *)
Definition example_truthy (z : Z) : bool := negb (Z.eqb z 0).

(** A reader of the few JSON texts the examples use; everything else is
    a syntax error. *)
Definition example_parse (text : JSValue Z) : option (JSValue Z) :=
  match text with
  | JStr s =>
      if jsstring_eqb s "null" then Some JNull
      else if jsstring_eqb s "true" then Some (JBool true)
      else if jsstring_eqb s "[]" then Some (JArr [])
      else if jsstring_eqb s "{}" then Some (JObj [])
      else None
  | _ => None
  end.

(** An upstream that answers every call the same way. *)
Definition always (answer : Settled Z) (args : JSValue Z) : Settled Z := answer.

(** A response envelope whose first output item has a first content
    item of type [output_text] carrying [text]. *)
Definition envelope (text : string) : JSValue Z :=
  JObj [ field "output"
           (JArr [ JObj [ field "type" (JStr "message");
                          field "content"
                            (JArr [ JObj [ field "type" (JStr "output_text");
                                           field "text" (JStr text) ] ]) ] ]) ].

(** An envelope whose only content item is a refusal. *)
Definition refusal_envelope : JSValue Z :=
  JObj [ field "output"
           (JArr [ JObj [ field "type" (JStr "message");
                          field "content"
                            (JArr [ JObj [ field "type" (JStr "refusal");
                                           field "refusal" (JStr "no") ] ]) ] ]) ].

(** An envelope whose text block comes second, after a refusal. *)
Definition late_text_envelope : JSValue Z :=
  JObj [ field "output"
           (JArr [ JObj [ field "type" (JStr "message");
                          field "content"
                            (JArr [ JObj [ field "type" (JStr "refusal");
                                           field "refusal" (JStr "no") ];
                                    JObj [ field "type" (JStr "output_text");
                                           field "text" (JStr "null") ] ]) ] ]) ].

(** A request body [{ imageBase64: image }]. *)
Definition request (image : JSValue Z) : JSValue Z :=
  JObj [ field "imageBase64" image ].

(** A string of [n] letters [A]. *)
Definition letters (n : N) : jsstring := repeat 65%N (N.to_nat n).

(** Two images, as data URLs. *)
Definition sample_image : jsstring := utf16 "data:image/jpeg;base64,/9j/4AAQ".
Definition other_image : jsstring := utf16 "data:image/png;base64,iVBORw0K".

(** The run of the handler in the examples. *)
Definition example_exec (answer : Settled Z) (req_body : JSValue Z)
  : list (Event Z) * completion Z unit :=
  exec example_truthy example_parse (always answer) req_body.

(* ================================================================== *)
(** ** Further readings of requests, traces and the rubric *)

Section Readings.

Variable number : Type.

Local Abbreviation value := (JSValue number).

(** The image parts of an outbound request. *)
Definition image_parts (args : value) : list value :=
  flat_map (fun message =>
              filter (@is_image_part number)
                     (elements (get_prop message "content")))
           (elements (get_prop args "input")).

(** A diagnostic of the trace, as the event it came from. *)
Definition log_event (entry : jsstring * Logged number) : Event number :=
  EvConsoleError (fst entry) (snd entry).

(** [undefined] or [null]: the values a property cannot be read from. *)
Definition nullish (v : value) : bool :=
  match v with
  | JUndefined | JNull => true
  | _ => false
  end.

(** [response.output[0].content[0]], the one item the handler looks at,
    read leniently: [undefined] wherever a property cannot be read. *)
Definition first_output_content (response : value) : value :=
  get_prop (get_prop (get_prop (get_prop response "output") "0") "content") "0".

End Readings.

(* ------------------------------------------------------------------ *)
(** *** The result format the rubric spells out *)

(** The rubric ends with the format of the expected result, written as
    an object whose members are [["name": type]], with line comments.
    It is read here as a [Shape]: first cut into tokens, then parsed. *)
Inductive Token : Type :=
| TOpen
| TClose
| TColon
| TComma
| TName (name : jsstring)
| TWord (word : jsstring)
| TOther (c : code_unit).

(** Where the scanner stands: between tokens, after one slash, in a
    line comment, in a quoted name or in a word (both kept reversed). *)
Inductive ScanMode : Type :=
| Plain
| AfterSlash
| InComment
| InName (seen : jsstring)
| InWord (seen : jsstring).

Definition is_letter (c : code_unit) : bool :=
  ((97 <=? c) && (c <=? 122))%N.

Definition is_blank (c : code_unit) : bool :=
  ((c =? 32) || (c =? 10) || (c =? 13) || (c =? 9))%N.

(** One code unit read between tokens. *)
Definition scan_plain (c : code_unit) : list Token * ScanMode :=
  if (c =? 123)%N then ([TOpen], Plain)
  else if (c =? 125)%N then ([TClose], Plain)
  else if (c =? 58)%N then ([TColon], Plain)
  else if (c =? 44)%N then ([TComma], Plain)
  else if (c =? 34)%N then ([], InName [])
  else if (c =? 47)%N then ([], AfterSlash)
  else if is_blank c then ([], Plain)
  else if is_letter c then ([], InWord [c])
  else ([TOther c], Plain).

Definition scan_step (mode : ScanMode) (c : code_unit)
  : list Token * ScanMode :=
  match mode with
  | Plain => scan_plain c
  | AfterSlash =>
      if (c =? 47)%N then ([], InComment)
      else (TOther 47%N :: fst (scan_plain c), snd (scan_plain c))
  | InComment => if (c =? 10)%N then ([], Plain) else ([], InComment)
  | InName seen =>
      if (c =? 34)%N then ([TName (rev seen)], Plain)
      else ([], InName (c :: seen))
  | InWord seen =>
      if is_letter c then ([], InWord (c :: seen))
      else (TWord (rev seen) :: fst (scan_plain c), snd (scan_plain c))
  end.

Fixpoint scan (mode : ScanMode) (text : jsstring) : list Token :=
  match text with
  | [] =>
      match mode with
      | InWord seen => [TWord (rev seen)]
      | InName _ => [TOther 34%N]
      | AfterSlash => [TOther 47%N]
      | _ => []
      end
  | c :: text' =>
      (fst (scan_step mode c) ++ scan (snd (scan_step mode c)) text')%list
  end.

(** The shape a type word names. *)
Definition shape_of_word (word : jsstring) : option Shape :=
  if jsstring_eqb word "number" then Some SNumber
  else if jsstring_eqb word "boolean" then Some SBoolean
  else if jsstring_eqb word "string" then Some SString
  else None.

(** A value is a type word or an object [{ members }]; the members are
    [name : value], separated by commas.  Each function gives what it
    read and the tokens left; [fuel] bounds the depth of the calls. *)
Fixpoint parse_value (fuel : nat) (tokens : list Token)
  : option (Shape * list Token) :=
  match fuel with
  | O => None
  | S fuel' =>
      match tokens with
      | TWord word :: rest =>
          match shape_of_word word with
          | Some shape => Some (shape, rest)
          | None => None
          end
      | TOpen :: TClose :: rest => Some (SObject [], rest)
      | TOpen :: rest =>
          match parse_members fuel' rest with
          | Some (fields, TClose :: rest') => Some (SObject fields, rest')
          | _ => None
          end
      | _ => None
      end
  end
with parse_members (fuel : nat) (tokens : list Token)
  : option (list (jsstring * Shape) * list Token) :=
  match fuel with
  | O => None
  | S fuel' =>
      match tokens with
      | TName name :: TColon :: rest =>
          match parse_value fuel' rest with
          | Some (shape, TComma :: rest') =>
              match parse_members fuel' rest' with
              | Some (fields, rest'') => Some ((name, shape) :: fields, rest'')
              | None => None
              end
          | Some (shape, rest') => Some ([(name, shape)], rest')
          | None => None
          end
      | _ => None
      end
  end.

(** The text from its first opening brace on. *)
Fixpoint from_first_brace (text : jsstring) : jsstring :=
  match text with
  | [] => []
  | c :: text' => if (c =? 123)%N then text else from_first_brace text'
  end.

(** The shape of the result format in a rubric: the object that opens
    at the first brace of its text. *)
Definition rubric_shape (rubric : jsstring) : option Shape :=
  let tokens := scan Plain (from_first_brace rubric) in
  option_map fst (parse_value (List.length tokens) tokens).

(* ================================================================== *)
(** ** Start of the server *)

Section Startup.

Variable number : Type.
Variable number_truthy : number -> bool.

(** The number a numeric literal of the program stands for. *)
Variable number_literal : Z -> number.

Local Abbreviation value := (JSValue number).

(** [a || b] *)
Definition logical_or (a b : value) : value :=
  if truthy number_truthy a then a else b.

(** [process.env.NAME]: the string the variable is set to, or
    [undefined]. *)
Definition env_value (setting : option jsstring) : value :=
  match setting with
  | Some s => JStr s
  | None => JUndefined
  end.

(** [const port = process.env.PORT || 4000;] *)
Definition port (env_PORT : option jsstring) : value :=
  logical_or (env_value env_PORT) (JNum (number_literal 4000)).

End Startup.

(* ================================================================== *)
(** ** Properties of the handler *)

Section Properties.

Variable number : Type.
Variable number_truthy : number -> bool.

Local Abbreviation value := (JSValue number).

Variable JSON_parse : value -> option value.
Variable upstream : value -> Settled number.

Local Abbreviation exec' := (exec number_truthy JSON_parse upstream).
Local Abbreviation rejects_image' := (rejects_image number_truthy).
Local Abbreviation rejects_content' := (rejects_content number_truthy).
Local Abbreviation extracted_text' := (extracted_text number_truthy).
Local Abbreviation rest_of_try' := (rest_of_try number_truthy JSON_parse).
Local Abbreviation handler_run' :=
  (handler_run number_truthy JSON_parse upstream).

(** *** The two checks on the request *)

Lemma rejects_image_false (v : value) :
  rejects_image' v = false -> exists c s, v = JStr (c :: s).
Proof.
  unfold rejects_image.
  destruct v as [| | b | n | [| c s] | items | props]; cbn [truthy typeof];
    try (intros H; apply orb_false_elim in H; destruct H as [H1 H2];
         vm_compute in H2; discriminate).
  intros _. exists c, s. reflexivity.
Qed.

Lemma rejects_image_string (c : code_unit) (s : jsstring) :
  rejects_image' (JStr (c :: s)) = false.
Proof. reflexivity. Qed.

Lemma rejects_image_not_string (v : value) :
  negb (jsstring_eqb (typeof v) "string") = true -> rejects_image' v = true.
Proof. intros H. unfold rejects_image. rewrite H. apply orb_true_r. Qed.

Lemma accepted_inv (req_body : value) (s : jsstring) :
  accepted req_body s ->
  exists c s', s = c :: s'
               /\ member req_body "imageBase64" = Normal (JStr (c :: s'))
               /\ (4000000 <? str_length (c :: s'))%N = false.
Proof.
  intros (H & Hne & Hlen). destruct s as [| c s'].
  - exfalso. apply Hne. reflexivity.
  - exists c, s'. repeat split; [ exact H | apply N.ltb_ge; exact Hlen ].
Qed.

(** *** One lemma for each path through the handler *)

Lemma exec_body_throws (req_body : value) (e : Exn number) :
  member req_body "imageBase64" = Abrupt e ->
  exec' req_body
  = ([log_internal e; send (reply_internal number)], Normal tt).
Proof.
  intros H. unfold exec, analyze_handler, analyze_try. rewrite H. reflexivity.
Qed.

Lemma exec_image_rejected (req_body imageBase64 : value) :
  member req_body "imageBase64" = Normal imageBase64 ->
  rejects_image' imageBase64 = true ->
  exec' req_body = ([send (reply_missing number)], Normal tt).
Proof.
  intros H Hr. unfold exec, analyze_handler, analyze_try. rewrite H.
  cbn [eval bind]. fold (rejects_image' imageBase64). rewrite Hr. reflexivity.
Qed.

Lemma exec_too_large (req_body : value) (s : jsstring) :
  member req_body "imageBase64" = Normal (JStr s) ->
  (4000000 < str_length s)%N ->
  exec' req_body = ([send (reply_too_large number)], Normal tt).
Proof.
  intros H Hlen. unfold exec, analyze_handler, analyze_try. rewrite H.
  cbn [eval bind]. fold (rejects_image' (JStr s)).
  destruct s as [| c s]; [ vm_compute in Hlen; discriminate Hlen | ].
  rewrite rejects_image_string. cbn [js_length].
  apply N.ltb_lt in Hlen. rewrite Hlen. reflexivity.
Qed.

Lemma exec_accepted (req_body : value) (s : jsstring) :
  accepted req_body s ->
  exec' req_body
  = (let r := run upstream
                  (try_catch (rest_of_try' (upstream (outbound (JStr s))))
                             (@on_error number)) in
     (EvCreate (outbound (JStr s)) :: fst r, snd r)).
Proof.
  intros Ha. destruct (accepted_inv Ha) as (c & s' & -> & H & Hlen).
  unfold exec, analyze_handler, analyze_try.
  rewrite H. cbn [eval bind]. fold (rejects_image' (JStr (c :: s'))).
  rewrite rejects_image_string. cbn [js_length]. rewrite Hlen. reflexivity.
Qed.

Lemma exec_upstream_rejected (req_body : value) (s : jsstring) (reason : value) :
  accepted req_body s ->
  upstream (outbound (JStr s)) = Rejected reason ->
  exec' req_body
  = ([EvCreate (outbound (JStr s)); log_internal (Reason reason);
      send (reply_internal number)], Normal tt).
Proof.
  intros Ha Hu. rewrite (exec_accepted Ha), Hu. reflexivity.
Qed.

Lemma exec_envelope_throws (req_body : value) (s : jsstring)
      (response : value) (e : Exn number) :
  accepted req_body s ->
  upstream (outbound (JStr s)) = Fulfilled response ->
  first_content response = Abrupt e ->
  exec' req_body
  = ([EvCreate (outbound (JStr s)); log_internal e;
      send (reply_internal number)], Normal tt).
Proof.
  intros Ha Hu Hc. rewrite (exec_accepted Ha), Hu.
  unfold rest_of_try. cbn [bind]. rewrite Hc. reflexivity.
Qed.

Lemma exec_format_error (req_body : value) (s : jsstring)
      (response content : value) :
  accepted req_body s ->
  upstream (outbound (JStr s)) = Fulfilled response ->
  first_content response = Normal content ->
  rejects_content' content = true ->
  exec' req_body
  = ([EvCreate (outbound (JStr s)); log_format response;
      send (reply_format number)], Normal tt).
Proof.
  intros Ha Hu Hc Hr. rewrite (exec_accepted Ha), Hu.
  unfold rest_of_try. cbn [bind]. rewrite Hc. cbn [eval bind].
  rewrite Hr. reflexivity.
Qed.

Lemma extracted_text_inv (response text : value) :
  extracted_text' response = Some text ->
  exists content,
    first_content response = Normal content
    /\ rejects_content' content = false
    /\ text = get_prop content "text".
Proof.
  unfold extracted_text.
  destruct (first_content response) as [content | e]; [ | discriminate ].
  destruct (rejects_content' content) eqn:Hr; [ discriminate | ].
  intros [= <-]. exists content. repeat split. exact Hr.
Qed.

Lemma exec_parse_error (req_body : value) (s : jsstring)
      (response text : value) :
  accepted req_body s ->
  upstream (outbound (JStr s)) = Fulfilled response ->
  extracted_text' response = Some text ->
  JSON_parse text = None ->
  exec' req_body
  = ([EvCreate (outbound (JStr s)); log_parse SyntaxError;
      send (reply_parse number)], Normal tt).
Proof.
  intros Ha Hu Ht Hp.
  destruct (extracted_text_inv _ Ht) as (content & Hc & Hr & ->).
  rewrite (exec_accepted Ha), Hu.
  unfold rest_of_try. cbn [bind]. rewrite Hc. cbn [eval bind]. rewrite Hr.
  unfold JSON_parse_completion. rewrite Hp. reflexivity.
Qed.

Lemma exec_success (req_body : value) (s : jsstring)
      (response text parsed : value) :
  accepted req_body s ->
  upstream (outbound (JStr s)) = Fulfilled response ->
  extracted_text' response = Some text ->
  JSON_parse text = Some parsed ->
  exec' req_body
  = ([EvCreate (outbound (JStr s)); EvSend 200 parsed], Normal tt).
Proof.
  intros Ha Hu Ht Hp.
  destruct (extracted_text_inv _ Ht) as (content & Hc & Hr & ->).
  rewrite (exec_accepted Ha), Hu.
  unfold rest_of_try. cbn [bind]. rewrite Hc. cbn [eval bind]. rewrite Hr.
  unfold JSON_parse_completion. rewrite Hp. reflexivity.
Qed.

(** Every run of the handler follows one of the eight paths. *)
Lemma exec_handler_run (req_body : value) :
  handler_run' req_body (exec' req_body).
Proof.
  destruct (member req_body "imageBase64") as [v | e] eqn:Hm.
  2: { rewrite (exec_body_throws _ Hm). apply run_body_throws. exact Hm. }
  destruct (rejects_image' v) eqn:Hv.
  { rewrite (exec_image_rejected _ Hm Hv).
    apply run_image_rejected with v; assumption. }
  destruct (rejects_image_false _ Hv) as (c & s & ->).
  destruct (4000000 <? str_length (c :: s))%N eqn:Hlen.
  { apply N.ltb_lt in Hlen. rewrite (exec_too_large _ Hm Hlen).
    apply run_too_large with (c :: s); assumption. }
  apply N.ltb_ge in Hlen.
  assert (Ha : accepted req_body (c :: s)).
  { split; [ exact Hm | split; [ discriminate | exact Hlen ] ]. }
  destruct (upstream (outbound (JStr (c :: s)))) as [response | reason] eqn:Hu.
  2: { rewrite (exec_upstream_rejected Ha Hu).
       apply run_upstream_rejected; assumption. }
  destruct (first_content response) as [content | e] eqn:Hc.
  2: { rewrite (exec_envelope_throws Ha Hu Hc).
       apply run_envelope_throws with response; assumption. }
  destruct (rejects_content' content) eqn:Hr.
  { rewrite (exec_format_error Ha Hu Hc Hr).
    apply run_format_error with content; assumption. }
  assert (Ht : extracted_text' response = Some (get_prop content "text")).
  { unfold extracted_text. rewrite Hc, Hr. reflexivity. }
  destruct (JSON_parse (get_prop content "text")) as [parsed |] eqn:Hp.
  - rewrite (exec_success Ha Hu Ht Hp).
    apply run_success with response (get_prop content "text"); assumption.
  - rewrite (exec_parse_error Ha Hu Ht Hp).
    apply run_parse_error with response (get_prop content "text"); assumption.
Qed.

(** *** What an accepted request leaves behind *)

Lemma accepted_calls (req_body : value) (s : jsstring) :
  accepted req_body s ->
  model_calls (fst (exec' req_body)) = [outbound (JStr s)].
Proof.
  intros Ha.
  destruct (upstream (outbound (JStr s))) as [response | reason] eqn:Hu;
    [ | rewrite (exec_upstream_rejected Ha Hu); reflexivity ].
  destruct (first_content response) as [content | e] eqn:Hc;
    [ | rewrite (exec_envelope_throws Ha Hu Hc); reflexivity ].
  destruct (rejects_content' content) eqn:Hr;
    [ rewrite (exec_format_error Ha Hu Hc Hr); reflexivity | ].
  assert (Ht : extracted_text' response = Some (get_prop content "text")).
  { unfold extracted_text. rewrite Hc, Hr. reflexivity. }
  destruct (JSON_parse (get_prop content "text")) as [parsed |] eqn:Hp.
  - rewrite (exec_success Ha Hu Ht Hp). reflexivity.
  - rewrite (exec_parse_error Ha Hu Ht Hp). reflexivity.
Qed.

Lemma accepted_reply (req_body : value) (s : jsstring) :
  accepted req_body s ->
  exists reply,
    responses (fst (exec' req_body)) = [reply]
    /\ (fst reply = 200 \/ fst reply = 500)%Z.
Proof.
  intros Ha.
  destruct (upstream (outbound (JStr s))) as [response | reason] eqn:Hu;
    [ | rewrite (exec_upstream_rejected Ha Hu);
        exists (reply_internal number); split; [ reflexivity | right; reflexivity ] ].
  destruct (first_content response) as [content | e] eqn:Hc;
    [ | rewrite (exec_envelope_throws Ha Hu Hc);
        exists (reply_internal number); split; [ reflexivity | right; reflexivity ] ].
  destruct (rejects_content' content) eqn:Hr;
    [ rewrite (exec_format_error Ha Hu Hc Hr);
      exists (reply_format number); split; [ reflexivity | right; reflexivity ] | ].
  assert (Ht : extracted_text' response = Some (get_prop content "text")).
  { unfold extracted_text. rewrite Hc, Hr. reflexivity. }
  destruct (JSON_parse (get_prop content "text")) as [parsed |] eqn:Hp.
  - rewrite (exec_success Ha Hu Ht Hp).
    exists (200%Z, parsed). split; [ reflexivity | left; reflexivity ].
  - rewrite (exec_parse_error Ha Hu Ht Hp).
    exists (reply_parse number). split; [ reflexivity | right; reflexivity ].
Qed.

Lemma not_accepted_when_body_throws (req_body : value) (e : Exn number) :
  member req_body "imageBase64" = Abrupt e ->
  forall s, ~ accepted req_body s.
Proof. intros H s (Hm & _). rewrite H in Hm. discriminate Hm. Qed.

Lemma not_accepted_when_rejected (req_body imageBase64 : value) :
  member req_body "imageBase64" = Normal imageBase64 ->
  rejects_image' imageBase64 = true ->
  forall s, ~ accepted req_body s.
Proof.
  intros H Hr s Ha. destruct (accepted_inv Ha) as (c & s' & -> & Hm & _).
  rewrite H in Hm. injection Hm as ->.
  rewrite rejects_image_string in Hr. discriminate Hr.
Qed.

Lemma not_accepted_when_too_large (req_body : value) (s : jsstring) :
  member req_body "imageBase64" = Normal (JStr s) ->
  (4000000 < str_length s)%N ->
  forall s', ~ accepted req_body s'.
Proof.
  intros H Hlen s' (Hm & _ & Hle). rewrite H in Hm. injection Hm as <-.
  apply N.lt_nge in Hlen. apply Hlen. exact Hle.
Qed.

(** Every request the handler sends upstream is [outbound] of an image
    that passed the checks. *)
Lemma model_calls_outbound (req_body args : value) :
  In args (model_calls (fst (exec' req_body))) ->
  exists s, accepted req_body s /\ args = outbound (JStr s).
Proof.
  destruct (exec_handler_run req_body)
    as [ e Hm | v Hm Hv | s Hm Hlen | s reason Ha Hu | s response e Ha Hu Hc
       | s response content Ha Hu Hc Hr | s response text Ha Hu Ht Hp
       | s response text parsed Ha Hu Ht Hp ];
    cbn [fst model_calls flat_map app send log_internal log_format log_parse];
    intros Hin;
    try (destruct Hin as [<- | []]; exists s; split; [ exact Ha | reflexivity ]);
    destruct Hin.
Qed.

(** *** Reading the response envelope *)

Lemma own_property_In (k : jsstring) (props : list (jsstring * value))
      (x : value) :
  own_property k props = Some x -> In x (map snd props).
Proof.
  induction props as [| [k' v] rest IH]; cbn [own_property map snd].
  - discriminate.
  - destruct (jsstring_eqb k k').
    + intros [= ->]. left. reflexivity.
    + intros H. right. apply IH. exact H.
Qed.

Lemma nth_defined_In (i : nat) (items : list value) (x : value) :
  nth i items JUndefined = x -> x <> JUndefined -> In x items.
Proof.
  intros H Hx. destruct (Nat.lt_ge_cases i (List.length items)) as [Hlt | Hge].
  - rewrite <- H. apply nth_In. exact Hlt.
  - exfalso. apply Hx. rewrite <- H. apply nth_overflow. exact Hge.
Qed.

Lemma get_prop_In (v : value) (k : jsstring) (x : value) :
  get_prop v k = x -> x <> JUndefined -> In x (elements v).
Proof.
  destruct v as [| | b | n | s | items | props]; cbn [get_prop elements];
    intros H Hx; try (exfalso; apply Hx; symmetry; exact H).
  - destruct (array_index k) as [i |];
      [ | exfalso; apply Hx; symmetry; exact H ].
    destruct (nth_error s i) as [c |] eqn:Hn;
      [ | exfalso; apply Hx; symmetry; exact H ].
    rewrite <- H.
    apply (in_map (fun u : code_unit => @JStr number [u]) s c).
    apply nth_error_In with i. exact Hn.
  - destruct (array_index k) as [i |];
      [ | exfalso; apply Hx; symmetry; exact H ].
    apply nth_defined_In with i; assumption.
  - destruct (own_property k props) as [y |] eqn:Ho;
      [ | exfalso; apply Hx; symmetry; exact H ].
    subst y. apply own_property_In with k. exact Ho.
Qed.

Lemma optional_member_defined (v : value) (k : jsstring) :
  optional_member v k <> JUndefined ->
  v <> JUndefined /\ optional_member v k = get_prop v k.
Proof.
  destruct v; cbn [optional_member]; intros H; split;
    try reflexivity; try discriminate; exfalso; apply H; reflexivity.
Qed.

Lemma member_defined (v : value) (k : jsstring) (x : value) :
  get_prop v k = x -> x <> JUndefined ->
  member v k = Normal x /\ optional_member v k = x.
Proof.
  intros H Hx.
  destruct v; unfold member, optional_member;
    try (rewrite H; split; reflexivity);
    exfalso; apply Hx; symmetry; exact H.
Qed.

Lemma rejects_content_false (content : value) :
  rejects_content' content = false ->
  is_text_block content = true /\ content <> JUndefined.
Proof.
  unfold rejects_content, is_text_block, strict_differs_string. intros H.
  apply orb_false_elim in H. destruct H as [Ht Hd].
  apply negb_false_iff in Hd. split; [ exact Hd | ].
  intros ->. discriminate Ht.
Qed.

(** The block the handler extracts is one of the text blocks of the
    envelope. *)
Lemma extracted_text_In (response text : value) :
  extracted_text' response = Some text ->
  exists block, In block (text_blocks response)
                /\ text = get_prop block "text".
Proof.
  intros Ht. destruct (extracted_text_inv _ Ht) as (content & Hc & Hr & ->).
  exists content. split; [ | reflexivity ].
  destruct (rejects_content_false _ Hr) as [Hb Hdef].
  unfold first_content in Hc.
  destruct (member response "output") as [output | e] eqn:Hm;
    [ | discriminate Hc ].
  injection Hc as Hc. rewrite <- Hc in Hdef.
  destruct (optional_member_defined _ _ Hdef) as [Hdef1 H1].
  destruct (optional_member_defined _ _ Hdef1) as [Hdef2 H2].
  destruct (optional_member_defined _ _ Hdef2) as [_ H3].
  rewrite H1 in Hc, Hdef. rewrite H2 in Hc, Hdef, Hdef1. rewrite H3 in *.
  assert (Ho : output = get_prop response "output").
  { destruct response; cbn [member] in Hm; try discriminate Hm;
      injection Hm as <-; reflexivity. }
  unfold text_blocks. apply in_flat_map.
  exists (get_prop output "0"). split.
  - rewrite <- Ho. apply get_prop_In with (utf16 "0");
      [ reflexivity | exact Hdef2 ].
  - apply filter_In. split; [ | exact Hb ].
    rewrite <- Hc. apply get_prop_In with (utf16 "0");
      [ reflexivity | exact Hdef ].
Qed.

(** On an envelope whose [output] and first [content] are arrays, the
    block the handler extracts is the first text block. *)
Lemma extracted_text_first (response item c text : value)
      (items cs : list value) :
  get_prop response "output" = JArr (item :: items) ->
  get_prop item "content" = JArr (c :: cs) ->
  extracted_text' response = Some text ->
  hd_error (text_blocks response) = Some c /\ text = get_prop c "text".
Proof.
  intros Ho Hi Ht.
  assert (Hc : first_content response = Normal c).
  { unfold first_content.
    destruct (member_defined response "output" Ho) as [-> _];
      [ discriminate | ].
    destruct (member_defined item "content" Hi) as [_ Hi'];
      [ discriminate | ].
    change (optional_member (JArr (item :: items)) "0") with item.
    rewrite Hi'. reflexivity. }
  destruct (extracted_text_inv _ Ht) as (content & Hc' & Hr & ->).
  rewrite Hc in Hc'. injection Hc' as <-.
  destruct (rejects_content_false _ Hr) as [Hb _].
  split; [ | reflexivity ].
  unfold text_blocks. rewrite Ho. cbn [elements flat_map].
  rewrite Hi. cbn [elements filter]. rewrite Hb. reflexivity.
Qed.


(** *** The outbound request *)

Lemma response_format_of_create_args (prompt : jsstring) (image : value) :
  get_prop (create_args prompt image) "response_format"
  = response_format number.
Proof. reflexivity. Qed.

Lemma non_image_portion_of_create_args (prompt : jsstring) (image : value) :
  non_image_portion (create_args prompt image)
  = [JObj [field "type" (JStr "input_text"); field "text" (JStr prompt)]].
Proof. reflexivity. Qed.

Lemma without_images_of_create_args (prompt : jsstring) (image : value) :
  without_images (create_args prompt image)
  = JObj [ field "model" (JStr "gpt-4.1-mini");
           field "input"
             (JArr [ JObj [ field "role" (JStr "user");
                            field "content"
                              (JArr [ JObj [ field "type" (JStr "input_text");
                                             field "text" (JStr prompt) ] ]) ] ]);
           field "response_format" (response_format number) ].
Proof. reflexivity. Qed.

(** *** Replies and diagnostics *)

Lemma error_replies_shape :
  Forall (fun reply =>
            (fst reply = 400 \/ fst reply = 500)%Z
            /\ exists message : string,
                snd reply = error_body number message)
         (error_replies number).
Proof.
  unfold error_replies.
  apply Forall_cons.
  { split; [ left; reflexivity | eexists; reflexivity ]. }
  apply Forall_cons.
  { split; [ left; reflexivity | eexists; reflexivity ]. }
  apply Forall_cons.
  { split; [ right; reflexivity | eexists; reflexivity ]. }
  apply Forall_cons.
  { split; [ right; reflexivity | eexists; reflexivity ]. }
  apply Forall_cons.
  { split; [ right; reflexivity | eexists; reflexivity ]. }
  apply Forall_nil.
Qed.

Lemma log_format_not_internal (response : value) (e : Exn number) :
  log_format response = log_internal e -> False.
Proof.
  unfold log_format, log_internal. intros H. injection H as Hl _.
  vm_compute in Hl. discriminate Hl.
Qed.

Lemma log_parse_not_internal (e' e : Exn number) :
  log_parse e' = log_internal e -> False.
Proof.
  unfold log_parse, log_internal. intros H. injection H as Hl _.
  vm_compute in Hl. discriminate Hl.
Qed.

Lemma log_labels_cover :
  In (utf16 "Formato inesperado de respuesta:") log_labels
  /\ In (utf16 "Error parseando JSON devuelto por el modelo:") log_labels
  /\ In (utf16 "Error en /analyze:") log_labels.
Proof.
  unfold log_labels. split; [ | split ].
  - left. reflexivity.
  - right. left. reflexivity.
  - right. right. left. reflexivity.
Qed.

(** *** The item the handler looks at *)

Lemma optional_member_get_prop (v : value) (k : jsstring) :
  optional_member v k = get_prop v k.
Proof. destruct v; reflexivity. Qed.

Lemma first_content_readable (response : value) :
  nullish response = false ->
  first_content response = Normal (first_output_content response).
Proof.
  intros Hn. unfold first_content, first_output_content.
  destruct response; try discriminate Hn; cbn [member];
    rewrite !optional_member_get_prop; reflexivity.
Qed.

Lemma first_content_nullish (response : value) :
  nullish response = true -> first_content response = Abrupt TypeError.
Proof. intros Hn. destruct response; try discriminate Hn; reflexivity. Qed.

Lemma first_output_content_nullish (response : value) :
  nullish response = true -> first_output_content response = JUndefined.
Proof. intros Hn. destruct response; try discriminate Hn; reflexivity. Qed.

(** *** The statements of the specification *)

(** C1, as amended.  For every request whose [imageBase64] is a string
    that is not empty and has at most 4,000,000 code units, and every
    upstream response whose extracted text block is valid JSON, the
    gateway replies once, with status 200 and with the value that
    [JSON.parse] gave for that text as the body; it logs nothing and the
    handler completes normally. *)
Theorem valid_json_is_forwarded_verbatim
        (req_body : value) (s : jsstring) (response text parsed : value) :
  accepted req_body s ->
  upstream (outbound (JStr s)) = Fulfilled response ->
  extracted_text' response = Some text ->
  JSON_parse text = Some parsed ->
  responses (fst (exec' req_body)) = [(200%Z, parsed)]
  /\ logs (fst (exec' req_body)) = []
  /\ snd (exec' req_body) = Normal tt.
Proof.
  intros Ha Hu Ht Hp. rewrite (exec_success Ha Hu Ht Hp).
  repeat split.
Qed.


(** C3.  For every request whose [imageBase64] is a string of more than
    4,000,000 code units, whatever the string holds, the gateway replies
    once, with status 400 and a body that carries an [error] field, and
    makes no call to the model. *)
Theorem oversized_image_is_rejected (req_body : value) (s : jsstring) :
  member req_body "imageBase64" = Normal (JStr s) ->
  (4000000 < str_length s)%N ->
  responses (fst (exec' req_body)) = [reply_too_large number]
  /\ fst (reply_too_large number) = 400%Z
  /\ has_error_field (snd (reply_too_large number)) = true
  /\ model_calls (fst (exec' req_body)) = []
  /\ snd (exec' req_body) = Normal tt.
Proof.
  intros Hm Hlen. rewrite (exec_too_large _ Hm Hlen). repeat split.
Qed.

(** C4, as amended.  The gateway looks at one item of the response of
    the model, the first content item of its first output item.  When
    that item is a text block, its text is what the gateway goes on to
    parse and answer from.  When that item is missing or is not a text
    block, and so for every upstream response that contains no text
    output block at all, the gateway replies once, with status 500 and
    a body that carries an [error] field, and the handler completes
    normally: nothing is thrown out of it. *)
Theorem response_without_text_block_is_500
        (req_body : value) (s : jsstring) (response : value) :
  accepted req_body s ->
  upstream (outbound (JStr s)) = Fulfilled response ->
  (truthy number_truthy (first_output_content response)
   && is_text_block (first_output_content response) = true ->
   extracted_text' response
   = Some (get_prop (first_output_content response) "text")
   /\ (forall parsed,
          JSON_parse (get_prop (first_output_content response) "text")
          = Some parsed ->
          responses (fst (exec' req_body)) = [(200%Z, parsed)])
   /\ (JSON_parse (get_prop (first_output_content response) "text") = None ->
       responses (fst (exec' req_body)) = [reply_parse number]))
  /\ (truthy number_truthy (first_output_content response)
      && is_text_block (first_output_content response) = false ->
      exists reply,
        responses (fst (exec' req_body)) = [reply]
        /\ In reply [reply_format number; reply_internal number]
        /\ fst reply = 500%Z
        /\ has_error_field (snd reply) = true
        /\ snd (exec' req_body) = Normal tt)
  /\ (text_blocks response = [] ->
      exists reply,
        responses (fst (exec' req_body)) = [reply]
        /\ In reply [reply_format number; reply_internal number]
        /\ fst reply = 500%Z
        /\ has_error_field (snd reply) = true
        /\ snd (exec' req_body) = Normal tt).
Proof.
  intros Ha Hu. split; [ | split ].
  - intros Hb.
    assert (Hn : nullish response = false).
    { destruct (nullish response) eqn:Hn; [ | reflexivity ].
      rewrite (first_output_content_nullish _ Hn) in Hb.
      cbn [truthy andb] in Hb. discriminate Hb. }
    pose proof (first_content_readable _ Hn) as Hc.
    assert (Hr : rejects_content' (first_output_content response) = false).
    { apply andb_prop in Hb. destruct Hb as [Ht Hi].
      unfold is_text_block in Hi.
      unfold rejects_content, strict_differs_string.
      rewrite Ht, Hi. reflexivity. }
    assert (Ht : extracted_text' response
                 = Some (get_prop (first_output_content response) "text")).
    { unfold extracted_text. rewrite Hc, Hr. reflexivity. }
    split; [ exact Ht | split ].
    + intros parsed Hp. rewrite (exec_success Ha Hu Ht Hp). reflexivity.
    + intros Hp. rewrite (exec_parse_error Ha Hu Ht Hp). reflexivity.
  - intros Hb. destruct (nullish response) eqn:Hn.
    + rewrite (exec_envelope_throws Ha Hu (first_content_nullish _ Hn)).
      exists (reply_internal number).
      repeat split. right. left. reflexivity.
    + pose proof (first_content_readable _ Hn) as Hc.
      assert (Hr : rejects_content' (first_output_content response) = true).
      { unfold rejects_content, strict_differs_string.
        unfold is_text_block in Hb.
        rewrite <- negb_andb. rewrite Hb. reflexivity. }
      rewrite (exec_format_error Ha Hu Hc Hr).
      exists (reply_format number). repeat split. left. reflexivity.
  - intros Hnone.
    destruct (first_content response) as [content | e] eqn:Hc.
    2: { rewrite (exec_envelope_throws Ha Hu Hc).
         exists (reply_internal number).
         repeat split. right. left. reflexivity. }
    destruct (rejects_content' content) eqn:Hr.
    { rewrite (exec_format_error Ha Hu Hc Hr).
      exists (reply_format number). repeat split. left. reflexivity. }
    exfalso.
    assert (Ht : extracted_text' response = Some (get_prop content "text")).
    { unfold extracted_text. rewrite Hc, Hr. reflexivity. }
    destruct (extracted_text_In _ Ht) as (block & Hin & _).
    rewrite Hnone in Hin. destruct Hin.
Qed.

(** C5.  For every upstream response whose extracted text is not valid
    JSON, the gateway replies once, with status 500 and a body that
    carries an [error] field: nothing of the upstream text is
    forwarded. *)
Theorem invalid_json_is_500
        (req_body : value) (s : jsstring) (response text : value) :
  accepted req_body s ->
  upstream (outbound (JStr s)) = Fulfilled response ->
  extracted_text' response = Some text ->
  JSON_parse text = None ->
  responses (fst (exec' req_body)) = [reply_parse number]
  /\ fst (reply_parse number) = 500%Z
  /\ has_error_field (snd (reply_parse number)) = true
  /\ snd (exec' req_body) = Normal tt.
Proof.
  intros Ha Hu Ht Hp. rewrite (exec_parse_error Ha Hu Ht Hp). repeat split.
Qed.


(** C8.  Every call to the model carries the response format of the
    program: a [json_schema] format whose schema declares exactly the
    fields and nesting of EvaluationResult, lists every declared field
    in [required] at every level, and is sent with [strict] set. *)
Theorem every_call_carries_the_strict_schema (req_body args : value) :
  In args (model_calls (fst (exec' req_body))) ->
  get_prop args "response_format" = response_format number
  /\ get_prop (response_format number) "type" = JStr "json_schema"
  /\ get_prop (get_prop (response_format number) "json_schema") "strict"
     = JBool true
  /\ declared_shape 4
       (get_prop (get_prop (response_format number) "json_schema") "schema")
     = Some EvaluationResult
  /\ all_required 4
       (get_prop (get_prop (response_format number) "json_schema") "schema")
     = true.
Proof.
  intros Hin. destruct (model_calls_outbound _ _ Hin) as (s & _ & ->).
  split; [ apply response_format_of_create_args | ].
  repeat split; vm_compute; reflexivity.
Qed.

(** C9, as amended.  Each run of the handler makes at most one call to
    the model: exactly one, with the request built for the image, when
    [imageBase64] is a non-empty string of at most 4,000,000 code units,
    and none otherwise.  Besides that call and the one reply, all it
    does is write at most one diagnostic, under one of the three labels
    of the program (unexpected response shape, parse failure, or an
    exception caught by the handler). *)
Theorem at_most_one_call_and_one_diagnostic (req_body : value) :
  ((exists s, accepted req_body s
              /\ model_calls (fst (exec' req_body)) = [outbound (JStr s)])
   \/ ((forall s, ~ accepted req_body s)
       /\ model_calls (fst (exec' req_body)) = []))
  /\ List.length (responses (fst (exec' req_body))) = 1%nat
  /\ (List.length (logs (fst (exec' req_body))) <= 1)%nat
  /\ Forall (fun entry => In (fst entry) log_labels)
            (logs (fst (exec' req_body))).
Proof.
  split.
  - destruct (exec_handler_run req_body)
      as [ e Hm | v Hm Hv | s Hm Hlen | s reason Ha Hu | s response e Ha Hu Hc
         | s response content Ha Hu Hc Hr | s response text Ha Hu Ht Hp
         | s response text parsed Ha Hu Ht Hp ];
      try (left; exists s; split; [ exact Ha | reflexivity ]);
      right; (split; [ | reflexivity ]).
    + apply not_accepted_when_body_throws with e. exact Hm.
    + apply not_accepted_when_rejected with v; assumption.
    + apply not_accepted_when_too_large with s; assumption.
  - destruct log_labels_cover as (Lf & Lp & Li).
    destruct (exec_handler_run req_body);
      (split; [ reflexivity | ]);
      cbn [fst logs flat_map app send log_internal log_format log_parse
           List.length];
      (split; [ lia | ]);
      repeat (apply Forall_cons; [ cbn [fst]; assumption | ]);
      apply Forall_nil.
Qed.

(** C10.  A request whose [imageBase64] is a string of exactly
    4,000,000 code units passes the size check: the handler makes the
    call to the model for it, and its reply has status 200 or 500, not
    the 400 of a rejected request. *)
Theorem image_at_the_ceiling_goes_upstream (req_body : value) (s : jsstring) :
  member req_body "imageBase64" = Normal (JStr s) ->
  str_length s = 4000000%N ->
  model_calls (fst (exec' req_body)) = [outbound (JStr s)]
  /\ exists reply,
      responses (fst (exec' req_body)) = [reply]
      /\ (fst reply = 200 \/ fst reply = 500)%Z
      /\ (fst reply =? 400)%Z = false.
Proof.
  intros Hm Hlen.
  assert (Ha : accepted req_body s).
  { split; [ exact Hm | split ].
    - intros ->. discriminate Hlen.
    - rewrite Hlen. apply N.le_refl. }
  split; [ apply accepted_calls; exact Ha | ].
  destruct (accepted_reply Ha) as (reply & Hr & Hst).
  exists reply. split; [ exact Hr | split; [ exact Hst | ] ].
  destruct Hst as [-> | ->]; reflexivity.
Qed.

End Properties.

Section TwoRequests.

Variable number : Type.
Variable number_truthy : number -> bool.
Variable JSON_parse : JSValue number -> option (JSValue number).

(** The two requests may meet different upstream behaviour. *)
Variables upstream1 upstream2 : JSValue number -> Settled number.

(** C7.  For any two requests, whatever their images, the calls made to
    the model have the same non-image portion: the single text part
    that carries the rubric of [buildPhotoPrompt].  More, the two
    outbound requests are equal once their image parts are taken out. *)
Theorem rubric_is_constant_across_requests
        (body1 body2 args1 args2 : JSValue number) :
  In args1 (model_calls (fst (exec number_truthy JSON_parse upstream1 body1))) ->
  In args2 (model_calls (fst (exec number_truthy JSON_parse upstream2 body2))) ->
  non_image_portion args1 = non_image_portion args2
  /\ non_image_portion args1
     = [JObj [ field "type" (JStr "input_text");
               field "text" (JStr (buildPhotoPrompt tt)) ]]
  /\ without_images args1 = without_images args2.
Proof.
  intros H1 H2.
  destruct (model_calls_outbound _ _ _ _ _ H1) as (s1 & _ & ->).
  destruct (model_calls_outbound _ _ _ _ _ H2) as (s2 & _ & ->).
  unfold outbound.
  rewrite !non_image_portion_of_create_args, !without_images_of_create_args.
  repeat split.
Qed.

End TwoRequests.

(* ================================================================== *)
(** ** Examples *)

Lemma str_length_letters (n : N) : str_length (letters n) = n.
Proof.
  unfold str_length, letters. rewrite repeat_length. apply N2Nat.id.
Qed.

Lemma accepted_request (s : jsstring) :
  s <> [] -> (str_length s <= 4000000)%N ->
  accepted (request (JStr s)) s.
Proof. intros Hne Hlen. split; [ reflexivity | split; assumption ]. Qed.

Lemma sample_image_accepted : accepted (request (JStr sample_image)) sample_image.
Proof.
  apply accepted_request.
  - intros H. vm_compute in H. discriminate H.
  - vm_compute. intros H. discriminate H.
Defined.

Lemma other_image_accepted : accepted (request (JStr other_image)) other_image.
Proof.
  apply accepted_request.
  - intros H. vm_compute in H. discriminate H.
  - vm_compute. intros H. discriminate H.
Defined.

(** The rubric has 2836 code units: the template without the line breaks
    at its two ends. *)
Example buildPhotoPrompt_length : str_length (buildPhotoPrompt tt) = 2836%N.
Proof. vm_compute. reflexivity. Qed.

Example buildPhotoPrompt_start : firstn 4 (buildPhotoPrompt tt) = utf16 "Eres".
Proof. vm_compute. reflexivity. Qed.

(** A request with no parsed body ([req.body] is [undefined]) is caught
    by the [catch] clause. *)
Example undefined_body_is_internal_error :
  example_exec (Fulfilled (envelope "{}")) JUndefined
  = ([log_internal TypeError; send (reply_internal Z)], Normal tt).
Proof. vm_compute. reflexivity. Qed.

(** An envelope whose text block is not the first content item of the
    first output item is answered as an unexpected format. *)
Example late_text_block_is_format_error :
  text_blocks late_text_envelope
  = [JObj [field "type" (JStr "output_text"); field "text" (JStr "null")]]
  /\ responses (fst (example_exec (Fulfilled late_text_envelope)
                                  (request (JStr sample_image))))
     = [reply_format Z].
Proof. vm_compute. split; reflexivity. Qed.

(** The schema of the program carries no [additionalProperties] keyword:
    that no other property is produced rests on [strict]. *)
Example schema_lacks_additionalProperties :
  lacks_keyword "additionalProperties" 4 (photo_evaluation_schema Z) = true.
Proof. vm_compute. reflexivity. Qed.

(** *** Instances of the statements *)

Lemma valid_json_is_forwarded_verbatim_witness :
  accepted (request (JStr sample_image)) sample_image
  /\ extracted_text example_truthy (envelope "{}") = Some (JStr "{}")
  /\ example_parse (JStr "{}") = Some (JObj [])
  /\ responses (fst (example_exec (Fulfilled (envelope "{}"))
                                  (request (JStr sample_image))))
     = [(200%Z, JObj [])]
  /\ logs (fst (example_exec (Fulfilled (envelope "{}"))
                             (request (JStr sample_image)))) = []
  /\ snd (example_exec (Fulfilled (envelope "{}"))
                       (request (JStr sample_image))) = Normal tt.
Proof.
  assert (Ht : extracted_text example_truthy (envelope "{}") = Some (JStr "{}"))
    by (vm_compute; reflexivity).
  assert (Hp : example_parse (JStr "{}") = Some (JObj []))
    by (vm_compute; reflexivity).
  split; [ exact sample_image_accepted | ].
  split; [ exact Ht | ]. split; [ exact Hp | ].
  exact (@valid_json_is_forwarded_verbatim Z example_truthy example_parse
           (always (Fulfilled (envelope "{}")))
           (request (JStr sample_image)) sample_image (envelope "{}")
           (JStr "{}") (JObj [])
           sample_image_accepted eq_refl Ht Hp).
Defined.

(** C1 as first stated does not hold of the empty string: it is
    present, is a string and is short enough, yet the first check of the
    handler rejects it, whatever the upstream would have answered. *)
Lemma empty_image_is_rejected :
  well_formed_request (request (@JStr Z ""))
  /\ extracted_text example_truthy (envelope "{}") = Some (JStr "{}")
  /\ example_parse (JStr "{}") = Some (JObj [])
  /\ responses (fst (example_exec (Fulfilled (envelope "{}"))
                                  (request (JStr ""))))
     = [reply_missing Z]
  /\ fst (reply_missing Z) = 400%Z.
Proof.
  split.
  { exists []. split; [ reflexivity | vm_compute; intros H; discriminate H ]. }
  vm_compute. repeat split.
Qed.



Lemma oversized_image_is_rejected_witness :
  (4000000 < str_length (letters 4000001))%N
  /\ responses (fst (example_exec (Fulfilled (envelope "{}"))
                                  (request (JStr (letters 4000001)))))
     = [reply_too_large Z]
  /\ fst (reply_too_large Z) = 400%Z
  /\ has_error_field (snd (reply_too_large Z)) = true
  /\ model_calls (fst (example_exec (Fulfilled (envelope "{}"))
                                    (request (JStr (letters 4000001))))) = []
  /\ snd (example_exec (Fulfilled (envelope "{}"))
                       (request (JStr (letters 4000001)))) = Normal tt.
Proof.
  assert (Hlen : (4000000 < str_length (letters 4000001))%N).
  { rewrite str_length_letters. reflexivity. }
  split; [ exact Hlen | ].
  exact (@oversized_image_is_rejected Z example_truthy example_parse
           (always (Fulfilled (envelope "{}")))
           (request (JStr (letters 4000001))) (letters 4000001)
           eq_refl Hlen).
Defined.

Lemma response_without_text_block_is_500_witness :
  accepted (request (JStr sample_image)) sample_image
  /\ truthy example_truthy (first_output_content (envelope "{}"))
     && is_text_block (first_output_content (envelope "{}")) = true
  /\ responses (fst (example_exec (Fulfilled (envelope "{}"))
                                  (request (JStr sample_image))))
     = [(200%Z, JObj [])]
  /\ text_blocks refusal_envelope = []
  /\ exists reply,
      responses (fst (example_exec (Fulfilled refusal_envelope)
                                   (request (JStr sample_image))))
      = [reply]
      /\ In reply [reply_format Z; reply_internal Z]
      /\ fst reply = 500%Z
      /\ has_error_field (snd reply) = true
      /\ snd (example_exec (Fulfilled refusal_envelope)
                           (request (JStr sample_image))) = Normal tt.
Proof.
  assert (Hb : truthy example_truthy (first_output_content (envelope "{}"))
               && is_text_block (first_output_content (envelope "{}")) = true)
    by (vm_compute; reflexivity).
  assert (Hp : example_parse
                 (get_prop (first_output_content (envelope "{}")) "text")
               = Some (JObj []))
    by (vm_compute; reflexivity).
  assert (Hnone : text_blocks refusal_envelope = [])
    by (vm_compute; reflexivity).
  split; [ exact sample_image_accepted | ].
  split; [ exact Hb | ].
  split.
  { exact (proj1 (proj2
             (proj1
                (@response_without_text_block_is_500 Z example_truthy
                   example_parse (always (Fulfilled (envelope "{}")))
                   (request (JStr sample_image)) sample_image (envelope "{}")
                   sample_image_accepted eq_refl)
                Hb))
             (JObj []) Hp). }
  split; [ exact Hnone | ].
  exact (proj2 (proj2
           (@response_without_text_block_is_500 Z example_truthy example_parse
              (always (Fulfilled refusal_envelope))
              (request (JStr sample_image)) sample_image refusal_envelope
              sample_image_accepted eq_refl))
           Hnone).
Defined.

(** C4 as first stated does not hold of a response whose first text
    block is not the first content item: the block is there and its
    text is valid JSON, yet it is not extracted and the reply is the
    format error. *)
Lemma first_text_block_is_not_extracted :
  hd_error (text_blocks late_text_envelope)
  = Some (JObj [field "type" (JStr "output_text"); field "text" (JStr "null")])
  /\ example_parse (JStr "null") = Some JNull
  /\ extracted_text example_truthy late_text_envelope = None
  /\ responses (fst (example_exec (Fulfilled late_text_envelope)
                                  (request (JStr sample_image))))
     = [reply_format Z]
  /\ fst (reply_format Z) = 500%Z.
Proof. vm_compute. repeat split. Qed.

Lemma invalid_json_is_500_witness :
  accepted (request (JStr sample_image)) sample_image
  /\ extracted_text example_truthy (envelope "Here is the JSON: {}")
     = Some (JStr "Here is the JSON: {}")
  /\ example_parse (JStr "Here is the JSON: {}") = None
  /\ responses (fst (example_exec (Fulfilled (envelope "Here is the JSON: {}"))
                                  (request (JStr sample_image))))
     = [reply_parse Z]
  /\ fst (reply_parse Z) = 500%Z
  /\ has_error_field (snd (reply_parse Z)) = true
  /\ snd (example_exec (Fulfilled (envelope "Here is the JSON: {}"))
                       (request (JStr sample_image))) = Normal tt.
Proof.
  assert (Ht : extracted_text example_truthy (envelope "Here is the JSON: {}")
               = Some (JStr "Here is the JSON: {}"))
    by (vm_compute; reflexivity).
  assert (Hp : example_parse (JStr "Here is the JSON: {}") = None)
    by (vm_compute; reflexivity).
  split; [ exact sample_image_accepted | ].
  split; [ exact Ht | ]. split; [ exact Hp | ].
  exact (@invalid_json_is_500 Z example_truthy example_parse
           (always (Fulfilled (envelope "Here is the JSON: {}")))
           (request (JStr sample_image)) sample_image
           (envelope "Here is the JSON: {}") (JStr "Here is the JSON: {}")
           sample_image_accepted eq_refl Ht Hp).
Defined.

Lemma sample_image_call :
  In (outbound (JStr sample_image))
     (model_calls (fst (example_exec (Fulfilled (envelope "{}"))
                                     (request (JStr sample_image))))).
Proof.
  unfold example_exec.
  rewrite (accepted_calls example_truthy example_parse
             (always (Fulfilled (envelope "{}"))) sample_image_accepted).
  left. reflexivity.
Defined.

Lemma other_image_call :
  In (outbound (JStr other_image))
     (model_calls (fst (example_exec (Rejected (JStr "ECONNRESET"))
                                     (request (JStr other_image))))).
Proof.
  unfold example_exec.
  rewrite (accepted_calls example_truthy example_parse
             (always (Rejected (JStr "ECONNRESET"))) other_image_accepted).
  left. reflexivity.
Defined.

Lemma rubric_is_constant_across_requests_witness :
  sample_image <> other_image
  /\ non_image_portion (@outbound Z (JStr sample_image))
     = non_image_portion (@outbound Z (JStr other_image))
  /\ non_image_portion (@outbound Z (JStr sample_image))
     = [JObj [ field "type" (JStr "input_text");
               field "text" (JStr (buildPhotoPrompt tt)) ]]
  /\ without_images (@outbound Z (JStr sample_image))
     = without_images (@outbound Z (JStr other_image)).
Proof.
  split.
  { intros H. vm_compute in H. discriminate H. }
  exact (@rubric_is_constant_across_requests Z example_truthy example_parse
           (always (Fulfilled (envelope "{}")))
           (always (Rejected (JStr "ECONNRESET")))
           (request (JStr sample_image)) (request (JStr other_image))
           (outbound (JStr sample_image)) (outbound (JStr other_image))
           sample_image_call other_image_call).
Defined.

Lemma every_call_carries_the_strict_schema_witness :
  get_prop (@outbound Z (JStr sample_image)) "response_format"
  = response_format Z
  /\ get_prop (response_format Z) "type" = JStr "json_schema"
  /\ get_prop (get_prop (response_format Z) "json_schema") "strict"
     = JBool true
  /\ declared_shape 4
       (get_prop (get_prop (response_format Z) "json_schema") "schema")
     = Some EvaluationResult
  /\ all_required 4
       (get_prop (get_prop (response_format Z) "json_schema") "schema")
     = true.
Proof.
  exact (@every_call_carries_the_strict_schema Z example_truthy example_parse
           (always (Fulfilled (envelope "{}")))
           (request (JStr sample_image)) (outbound (JStr sample_image))
           sample_image_call).
Defined.

(** C9 as first stated does not hold of a request that fails the
    checks, which is answered without any call to the model; and the
    handler also logs the exceptions it catches, here a rejected call. *)
Lemma rejected_request_makes_no_call :
  List.length
    (model_calls (fst (example_exec (Fulfilled (envelope "{}")) (JObj []))))
  = 0%nat
  /\ logs (fst (example_exec (Rejected (JStr "ECONNRESET"))
                             (request (JStr sample_image))))
     = [(utf16 "Error en /analyze:", LogExn (Reason (JStr "ECONNRESET")))].
Proof. vm_compute. split; reflexivity. Qed.

Lemma image_at_the_ceiling_goes_upstream_witness :
  str_length (letters 4000000) = 4000000%N
  /\ model_calls (fst (example_exec (Fulfilled (envelope "{}"))
                                    (request (JStr (letters 4000000)))))
     = [outbound (JStr (letters 4000000))]
  /\ exists reply,
      responses (fst (example_exec (Fulfilled (envelope "{}"))
                                   (request (JStr (letters 4000000)))))
      = [reply]
      /\ (fst reply = 200 \/ fst reply = 500)%Z
      /\ (fst reply =? 400)%Z = false.
Proof.
  split; [ apply str_length_letters | ].
  exact (@image_at_the_ceiling_goes_upstream Z example_truthy example_parse
           (always (Fulfilled (envelope "{}")))
           (request (JStr (letters 4000000))) (letters 4000000)
           eq_refl (str_length_letters 4000000)).
Defined.

(* ================================================================== *)
(** ** Further properties of the program *)

Section MoreProperties.

Variable number : Type.
Variable number_truthy : number -> bool.

Local Abbreviation value := (JSValue number).

Variable JSON_parse : value -> option value.
Variable upstream : value -> Settled number.

Local Abbreviation exec' := (exec number_truthy JSON_parse upstream).

Lemma error_body_inj (m1 m2 : string) :
  error_body number m1 = error_body number m2 -> utf16 m1 = utf16 m2.
Proof. unfold error_body, field. intros H. injection H as H. exact H. Qed.

(** The three ways a request body that can be destructured is treated. *)
Lemma validation_cases (req_body v : value) :
  member req_body "imageBase64" = Normal v ->
  ((forall c s, v <> JStr (c :: s))
   /\ exec' req_body = ([send (reply_missing number)], Normal tt))
  \/ (exists s, v = JStr s /\ (4000000 < str_length s)%N
                /\ exec' req_body = ([send (reply_too_large number)], Normal tt))
  \/ (exists s, v = JStr s /\ accepted req_body s).
Proof.
  intros Hm. destruct (rejects_image number_truthy v) eqn:Hv.
  { left. split.
    - intros c s ->. rewrite rejects_image_string in Hv. discriminate Hv.
    - apply exec_image_rejected with v; assumption. }
  destruct (rejects_image_false _ _ Hv) as (c & s & ->).
  destruct (4000000 <? str_length (c :: s))%N eqn:Hlen.
  - right. left. apply N.ltb_lt in Hlen. exists (c :: s).
    split; [ reflexivity | split; [ exact Hlen | ] ].
    apply exec_too_large with (c :: s); assumption.
  - right. right. apply N.ltb_ge in Hlen. exists (c :: s).
    split; [ reflexivity | ].
    split; [ exact Hm | split; [ discriminate | exact Hlen ] ].
Qed.

(** X1.  When the call to the model fails (its promise is rejected),
    the handler has made that one call, logs the reason under its
    generic label, and answers with the generic status 500 reply: the
    reason reaches the log and not the caller, and nothing is retried. *)
Theorem upstream_failure_is_generic_500
        (req_body : value) (s : jsstring) (reason : value) :
  accepted req_body s ->
  upstream (outbound (JStr s)) = Rejected reason ->
  model_calls (fst (exec' req_body)) = [outbound (JStr s)]
  /\ logs (fst (exec' req_body))
     = [(utf16 "Error en /analyze:", LogExn (Reason reason))]
  /\ responses (fst (exec' req_body)) = [reply_internal number]
  /\ snd (exec' req_body) = Normal tt.
Proof.
  intros Ha Hu. rewrite (exec_upstream_rejected _ _ _ Ha Hu). repeat split.
Qed.

(** X3.  For a request body whose [imageBase64] can be read, the two
    status 400 replies are told apart exactly by the value read: the
    "missing" reply is given if and only if it is not a non-empty
    string (so also for the empty string, [null], numbers and
    booleans), the "too large" reply if and only if it is a string of
    more than 4,000,000 code units, and the status is 400 if and only
    if the request does not pass the checks. *)
Theorem validation_replies_characterised (req_body v : value) :
  member req_body "imageBase64" = Normal v ->
  (responses (fst (exec' req_body)) = [reply_missing number]
   <-> (forall c s, v <> JStr (c :: s)))
  /\ (responses (fst (exec' req_body)) = [reply_too_large number]
      <-> (exists s, v = JStr s /\ (4000000 < str_length s)%N))
  /\ ((exists reply, responses (fst (exec' req_body)) = [reply]
                     /\ fst reply = 400%Z)
      <-> (forall s, ~ accepted req_body s)).
Proof.
  intros Hm.
  destruct (validation_cases _ Hm)
    as [ [Hv He] | [ (s & -> & Hlen & He) | (s & -> & Ha) ] ].
  - (* not a non-empty string *)
    rewrite He. split; [ | split ].
    + split; [ intros _; exact Hv | reflexivity ].
    + split.
      * intros H. injection H as H. discriminate H.
      * intros (s & -> & Hlen). exfalso. destruct s as [| c s].
        -- vm_compute in Hlen. discriminate Hlen.
        -- apply (Hv c s). reflexivity.
    + split.
      * intros _ s Ha. destruct (accepted_inv Ha) as (c & s' & -> & Hm' & _).
        rewrite Hm in Hm'. injection Hm' as ->. apply (Hv c s'). reflexivity.
      * intros _. exists (reply_missing number). split; reflexivity.
  - (* too large *)
    rewrite He. split; [ | split ].
    + split.
      * intros H. injection H as H. discriminate H.
      * intros Hv. exfalso. destruct s as [| c s].
        -- vm_compute in Hlen. discriminate Hlen.
        -- apply (Hv c s). reflexivity.
    + split; [ intros _; exists s; split; [ reflexivity | exact Hlen ]
             | reflexivity ].
    + split.
      * intros _. apply not_accepted_when_too_large with s; assumption.
      * intros _. exists (reply_too_large number). split; reflexivity.
  - (* accepted *)
    destruct (accepted_reply number_truthy JSON_parse upstream Ha)
      as (reply & Hr & Hst).
    rewrite Hr.
    assert (Hne : fst reply <> 400%Z)
      by (destruct Hst as [-> | ->]; discriminate).
    destruct (accepted_inv Ha) as (c & s' & -> & _ & Hlen).
    split; [ | split ].
    + split.
      * intros H. injection H as ->. exfalso. apply Hne. reflexivity.
      * intros Hv. exfalso. apply (Hv c s'). reflexivity.
    + split.
      * intros H. injection H as ->. exfalso. apply Hne. reflexivity.
      * intros (s & Hs & Hgt). injection Hs as <-. exfalso.
        apply N.ltb_ge in Hlen. apply N.lt_nge in Hgt. apply Hgt. exact Hlen.
    + split.
      * intros (reply' & H & H400). injection H as <-. exfalso.
        apply Hne. exact H400.
      * intros Hn. exfalso. apply (Hn (c :: s')). exact Ha.
Qed.

(** X4.  Every run of the handler does things in one order: the call to
    the model first (when there is one), then the diagnostic (when there
    is one), and the reply last.  Nothing is done once the reply is
    sent. *)
Theorem trace_is_call_then_log_then_reply (req_body : value) :
  fst (exec' req_body)
  = (map (@EvCreate number) (model_calls (fst (exec' req_body)))
     ++ map (@log_event number) (logs (fst (exec' req_body)))
     ++ map (@send number) (responses (fst (exec' req_body))))%list.
Proof.
  pose proof (exec_handler_run number_truthy JSON_parse upstream req_body)
    as Hrun.
  destruct Hrun;
    cbn [fst snd model_calls logs responses flat_map app map send log_event
         log_internal log_format log_parse];
    unfold send, log_event, log_internal, log_format, log_parse;
    cbn [fst snd]; reflexivity.
Qed.

(** X5.  Every request sent to the model carries the image exactly as
    the handler read it from the request body: one image part, whose
    [image_url] is the received string, neither decoded nor altered. *)
Theorem image_is_passed_verbatim (req_body args : value) :
  In args (model_calls (fst (exec' req_body))) ->
  exists s,
    member req_body "imageBase64" = Normal (JStr s)
    /\ image_parts args
       = [JObj [ field "type" (JStr "input_image");
                 field "image_url" (JStr s) ]].
Proof.
  intros Hin.
  destruct (model_calls_outbound _ _ _ _ _ Hin) as (s & (Hm & _) & ->).
  exists s. split; [ exact Hm | reflexivity ].
Qed.

(** X6.  With the request accepted and the call fulfilled, the generic
    status 500 reply is given if and only if the response itself is
    [undefined] or [null]: thanks to the optional chaining no other
    shape of response makes the inspection throw. *)
Theorem fulfilled_internal_error_iff_nullish
        (req_body : value) (s : jsstring) (response : value) :
  accepted req_body s ->
  upstream (outbound (JStr s)) = Fulfilled response ->
  (responses (fst (exec' req_body)) = [reply_internal number]
   <-> nullish response = true).
Proof.
  intros Ha Hu.
  destruct (first_content response) as [content | e] eqn:Hc.
  - assert (Hn : nullish response = false).
    { destruct response; try reflexivity; discriminate Hc. }
    rewrite Hn. split; [ | discriminate ].
    destruct (rejects_content number_truthy content) eqn:Hr.
    + rewrite (exec_format_error _ _ _ Ha Hu Hc Hr). intros H. exfalso.
      injection H as H. discriminate H.
    + assert (Ht : extracted_text number_truthy response
                   = Some (get_prop content "text")).
      { unfold extracted_text. rewrite Hc, Hr. reflexivity. }
      destruct (JSON_parse (get_prop content "text")) as [parsed |] eqn:Hp.
      * rewrite (exec_success _ _ _ Ha Hu Ht Hp). intros H. discriminate H.
      * rewrite (exec_parse_error _ _ _ Ha Hu Ht Hp). intros H. exfalso.
        injection H as H. discriminate H.
  - rewrite (exec_envelope_throws _ _ _ Ha Hu Hc).
    split; [ intros _ | reflexivity ].
    destruct response; try reflexivity; discriminate Hc.
Qed.


(** X7.  The rubric and the schema agree: the result format that the
    text of [buildPhotoPrompt] spells out, read as a shape (the names
    of the members, their order, their nesting and their types), is
    exactly the shape the schema declares, which is EvaluationResult. *)
Theorem rubric_format_is_the_schema_shape :
  let shape := rubric_shape (buildPhotoPrompt tt) in
  shape = declared_shape 4 (photo_evaluation_schema number)
  /\ shape = Some EvaluationResult.
Proof. vm_compute. split; reflexivity. Qed.

(** X8.  The port the server listens on is 4000 exactly when [PORT] is
    not set or is set to the empty string; any other setting is used as
    it stands, a string, whether or not it spells a number. *)
Theorem port_defaults_to_4000
        (number_literal : Z -> number) (env_PORT : option jsstring) :
  (port number_truthy number_literal env_PORT = JNum (number_literal 4000%Z)
   <-> env_PORT = None \/ env_PORT = Some [])
  /\ (forall c s, env_PORT = Some (c :: s) ->
                  port number_truthy number_literal env_PORT = JStr (c :: s)).
Proof.
  split.
  - destruct env_PORT as [[| c s] |]; cbn; split; intros H.
    + right. reflexivity.
    + reflexivity.
    + discriminate H.
    + destruct H as [H | H]; discriminate H.
    + left. reflexivity.
    + reflexivity.
  - intros c s ->. reflexivity.
Qed.

End MoreProperties.

Section UpstreamIndependence.

Variable number : Type.
Variable number_truthy : number -> bool.
Variable JSON_parse : JSValue number -> option (JSValue number).
Variables upstream1 upstream2 : JSValue number -> Settled number.

(** X2.  A request that does not pass the checks is answered before the
    upstream is consulted: its whole run (trace and completion) is the
    same whatever the upstream provider would have done. *)
Theorem rejected_request_ignores_upstream (req_body : JSValue number) :
  (forall s, ~ accepted req_body s) ->
  exec number_truthy JSON_parse upstream1 req_body
  = exec number_truthy JSON_parse upstream2 req_body.
Proof.
  intros Hn.
  destruct (member req_body "imageBase64") as [v | e] eqn:Hm.
  2: { rewrite (@exec_body_throws number number_truthy JSON_parse upstream1 req_body e Hm).
       rewrite (@exec_body_throws number number_truthy JSON_parse upstream2 req_body e Hm).
       reflexivity. }
  destruct (rejects_image number_truthy v) eqn:Hv.
  { rewrite (@exec_image_rejected number number_truthy JSON_parse upstream1 req_body v Hm Hv).
    rewrite (@exec_image_rejected number number_truthy JSON_parse upstream2 req_body v Hm Hv).
    reflexivity. }
  destruct (rejects_image_false _ _ Hv) as (c & s & ->).
  destruct (4000000 <? str_length (c :: s))%N eqn:Hlen.
  - apply N.ltb_lt in Hlen.
    rewrite (@exec_too_large number number_truthy JSON_parse upstream1 req_body (c :: s) Hm Hlen).
    rewrite (@exec_too_large number number_truthy JSON_parse upstream2 req_body (c :: s) Hm Hlen).
    reflexivity.
  - exfalso. apply (Hn (c :: s)). apply N.ltb_ge in Hlen.
    split; [ exact Hm | split; [ discriminate | exact Hlen ] ].
Qed.

(** X9.  Past the checks, what the handler logs and replies is decided
    by the answer of the upstream alone: two accepted requests, with
    whatever images, whose calls are settled the same way leave the same
    diagnostics and the same reply. *)
Theorem reply_depends_on_upstream_answer_only
        (body1 body2 : JSValue number) (s1 s2 : jsstring) :
  accepted body1 s1 ->
  accepted body2 s2 ->
  upstream1 (outbound (JStr s1)) = upstream2 (outbound (JStr s2)) ->
  responses (fst (exec number_truthy JSON_parse upstream1 body1))
  = responses (fst (exec number_truthy JSON_parse upstream2 body2))
  /\ logs (fst (exec number_truthy JSON_parse upstream1 body1))
     = logs (fst (exec number_truthy JSON_parse upstream2 body2)).
Proof.
  intros Ha1 Ha2 Hu.
  destruct (upstream2 (outbound (JStr s2))) as [response | reason] eqn:Hu2.
  2: { rewrite (@exec_upstream_rejected number number_truthy JSON_parse
                  upstream1 body1 s1 reason Ha1 Hu).
       rewrite (@exec_upstream_rejected number number_truthy JSON_parse
                  upstream2 body2 s2 reason Ha2 Hu2).
       split; reflexivity. }
  destruct (first_content response) as [content | e] eqn:Hc.
  2: { rewrite (@exec_envelope_throws number number_truthy JSON_parse
                  upstream1 body1 s1 response e Ha1 Hu Hc).
       rewrite (@exec_envelope_throws number number_truthy JSON_parse
                  upstream2 body2 s2 response e Ha2 Hu2 Hc).
       split; reflexivity. }
  destruct (rejects_content number_truthy content) eqn:Hr.
  { rewrite (@exec_format_error number number_truthy JSON_parse
               upstream1 body1 s1 response content Ha1 Hu Hc Hr).
    rewrite (@exec_format_error number number_truthy JSON_parse
               upstream2 body2 s2 response content Ha2 Hu2 Hc Hr).
    split; reflexivity. }
  assert (Ht : extracted_text number_truthy response
               = Some (get_prop content "text")).
  { unfold extracted_text. rewrite Hc, Hr. reflexivity. }
  destruct (JSON_parse (get_prop content "text")) as [parsed |] eqn:Hp.
  - rewrite (@exec_success number number_truthy JSON_parse
               upstream1 body1 s1 response _ parsed Ha1 Hu Ht Hp).
    rewrite (@exec_success number number_truthy JSON_parse
               upstream2 body2 s2 response _ parsed Ha2 Hu2 Ht Hp).
    split; reflexivity.
  - rewrite (@exec_parse_error number number_truthy JSON_parse
               upstream1 body1 s1 response _ Ha1 Hu Ht Hp).
    rewrite (@exec_parse_error number number_truthy JSON_parse
               upstream2 body2 s2 response _ Ha2 Hu2 Ht Hp).
    split; reflexivity.
Qed.

End UpstreamIndependence.

(** *** Instances of the further properties *)

Lemma upstream_failure_is_generic_500_witness :
  accepted (request (JStr sample_image)) sample_image
  /\ model_calls (fst (example_exec (Rejected (JStr "ECONNRESET"))
                                    (request (JStr sample_image))))
     = [outbound (JStr sample_image)]
  /\ logs (fst (example_exec (Rejected (JStr "ECONNRESET"))
                             (request (JStr sample_image))))
     = [(utf16 "Error en /analyze:", LogExn (Reason (JStr "ECONNRESET")))]
  /\ responses (fst (example_exec (Rejected (JStr "ECONNRESET"))
                                  (request (JStr sample_image))))
     = [reply_internal Z]
  /\ snd (example_exec (Rejected (JStr "ECONNRESET"))
                       (request (JStr sample_image))) = Normal tt.
Proof.
  split; [ exact sample_image_accepted | ].
  exact (@upstream_failure_is_generic_500 Z example_truthy example_parse
           (always (Rejected (JStr "ECONNRESET")))
           (request (JStr sample_image)) sample_image (JStr "ECONNRESET")
           sample_image_accepted eq_refl).
Defined.

Lemma empty_object_not_accepted : forall s, ~ accepted (@JObj Z []) s.
Proof. intros s (Hm & _). discriminate Hm. Defined.

Lemma rejected_request_ignores_upstream_witness :
  example_exec (Fulfilled (envelope "{}")) (JObj [])
  = example_exec (Rejected (JStr "ECONNRESET")) (JObj []).
Proof.
  exact (@rejected_request_ignores_upstream Z example_truthy example_parse
           (always (Fulfilled (envelope "{}")))
           (always (Rejected (JStr "ECONNRESET")))
           (JObj []) empty_object_not_accepted).
Defined.

Lemma validation_replies_characterised_witness :
  member (request (@JStr Z "")) "imageBase64" = Normal (JStr "")
  /\ (responses (fst (example_exec (Fulfilled (envelope "{}"))
                                   (request (JStr ""))))
      = [reply_missing Z]
      <-> (forall c s, @JStr Z "" <> JStr (c :: s))).
Proof.
  split; [ reflexivity | ].
  exact (proj1
           (@validation_replies_characterised Z example_truthy example_parse
              (always (Fulfilled (envelope "{}")))
              (request (JStr "")) (JStr "") eq_refl)).
Defined.

Lemma image_is_passed_verbatim_witness :
  exists s,
    member (request (JStr sample_image)) "imageBase64" = Normal (JStr s)
    /\ image_parts (@outbound Z (JStr sample_image))
       = [JObj [ field "type" (JStr "input_image");
                 field "image_url" (JStr s) ]].
Proof.
  exact (@image_is_passed_verbatim Z example_truthy example_parse
           (always (Fulfilled (envelope "{}")))
           (request (JStr sample_image)) (outbound (JStr sample_image))
           sample_image_call).
Defined.

Lemma fulfilled_internal_error_iff_nullish_witness :
  accepted (request (JStr sample_image)) sample_image
  /\ (responses (fst (example_exec (Fulfilled JNull)
                                   (request (JStr sample_image))))
      = [reply_internal Z]
      <-> nullish (@JNull Z) = true).
Proof.
  split; [ exact sample_image_accepted | ].
  exact (@fulfilled_internal_error_iff_nullish Z example_truthy example_parse
           (always (Fulfilled JNull))
           (request (JStr sample_image)) sample_image JNull
           sample_image_accepted eq_refl).
Defined.

Lemma always_constant (answer : Settled Z) (args1 args2 : JSValue Z) :
  always answer args1 = always answer args2.
Proof. reflexivity. Defined.

Lemma reply_depends_on_upstream_answer_only_witness :
  responses (fst (example_exec (Fulfilled (envelope "{}"))
                               (request (JStr sample_image))))
  = responses (fst (example_exec (Fulfilled (envelope "{}"))
                                 (request (JStr other_image))))
  /\ logs (fst (example_exec (Fulfilled (envelope "{}"))
                             (request (JStr sample_image))))
     = logs (fst (example_exec (Fulfilled (envelope "{}"))
                               (request (JStr other_image)))).
Proof.
  exact (@reply_depends_on_upstream_answer_only Z example_truthy example_parse
           (always (Fulfilled (envelope "{}")))
           (always (Fulfilled (envelope "{}")))
           (request (JStr sample_image)) (request (JStr other_image))
           sample_image other_image
           sample_image_accepted other_image_accepted
           (always_constant (Fulfilled (envelope "{}"))
              (outbound (JStr sample_image)) (outbound (JStr other_image)))).
Defined.

